(** * Mongo Change Trigger: a shallow embedding of
      [nodes/MongoChangeTrigger/MongoChangeTrigger.node.ts]

    The node connects to MongoDB, validates the target database and
    collection, builds an aggregation pipeline, opens a change stream and
    forwards every change event, normalised by [formatChangeOutput] and
    filtered by the user's conditions, to the workflow engine.

    Strings are sequences of code units below 256 ([string]). *)

From Stdlib Require Import ZArith List String Ascii Bool Lia DecimalString.
Import ListNotations.
Local Open Scope string_scope.
Local Open Scope Z_scope.
Set Warnings "-register-all".

(** ** JavaScript strings *)

Module JsString.

(** The white space and line terminators that [String.prototype.trim]
    removes, among the code units below 256: TAB, LF, VT, FF, CR, SP and
    NBSP. *)
Definition isWhiteSpace (c : ascii) : bool :=
  let n := nat_of_ascii c in
  ((9 <=? n) && (n <=? 13) || (n =? 32) || (n =? 160))%nat.

Fixpoint trimStart (s : string) : string :=
  match s with
  | String c r => if isWhiteSpace c then trimStart r else s
  | EmptyString => EmptyString
  end.

(** [trimEnd] drops a character when it is white space and everything
    after it has been dropped. *)
Fixpoint trimEnd (s : string) : string :=
  match s with
  | EmptyString => EmptyString
  | String c r =>
      match trimEnd r with
      | EmptyString => if isWhiteSpace c then EmptyString else String c EmptyString
      | r' => String c r'
      end
  end.

Definition trim (s : string) : string := trimEnd (trimStart s).

(** [s.split(sep)] for a one-character separator: the pieces between the
    separators, never an empty array. *)
Fixpoint split (sep : ascii) (s : string) : list string :=
  match s with
  | EmptyString => [EmptyString]
  | String c r =>
      if Ascii.eqb c sep then EmptyString :: split sep r
      else match split sep r with
           | p :: ps => String c p :: ps
           | [] => [String c EmptyString]
           end
  end.

(** [s.includes(sub)]. *)
Fixpoint includes (sub s : string) : bool :=
  String.prefix sub s ||
  match s with
  | EmptyString => false
  | String _ r => includes sub r
  end.

Definition ofZ (n : Z) : string := NilZero.string_of_int (Z.to_int n).

(** [s.includes(c)] for one character. *)
Fixpoint mem (c : ascii) (s : string) : bool :=
  match s with
  | EmptyString => false
  | String d r => Ascii.eqb c d || mem c r
  end.

Fixpoint zeros (n : nat) : string :=
  match n with
  | O => EmptyString
  | S m => String "0" (zeros m)
  end.

(** [s.padStart(w, '0')]. *)
Definition padStart (w : nat) (s : string) : string :=
  zeros (w - String.length s) ++ s.

End JsString.

(** [a === b] on strings. *)
Infix "==?" := String.eqb (at level 70, no associativity).

(** ** Errors and results *)

(** A thrown value: the error's [name], its [message], the driver's
    [codeName] when it has one, and the error it wraps. *)
Inductive JsError : Type :=
| MkError (name : string) (message : option string) (codeName : option string)
          (cause : option JsError).

Definition errName (e : JsError) : string := let 'MkError n _ _ _ := e in n.
Definition errMessage (e : JsError) : option string := let 'MkError _ m _ _ := e in m.
Definition errCodeName (e : JsError) : option string := let 'MkError _ _ c _ := e in c.
Definition errCause (e : JsError) : option JsError := let 'MkError _ _ _ c := e in c.

Inductive Result (A : Type) : Type :=
| Ok (a : A)
| Throw (e : JsError).
Arguments Ok {A} a.
Arguments Throw {A} e.

Definition bind {A B : Type} (r : Result A) (k : A -> Result B) : Result B :=
  match r with
  | Ok a => k a
  | Throw e => Throw e
  end.

(** [try { body } catch (error) { handler(error) }]. *)
Definition tryCatch {A : Type} (body : Result A) (handler : JsError -> Result A) : Result A :=
  match body with
  | Ok a => Ok a
  | Throw e => handler e
  end.

(** A TypeError, with the message the engine gives it. *)
Definition typeError (message : string) : JsError :=
  MkError "TypeError" (Some message) None None.

(** ** Values of documents *)

(** What a BSON document deserialises to.  Instances of the driver's
    classes (ObjectId, Long, Decimal128, Binary, dates inside documents, ...)
    are [JInst], carrying the class name and what their [toString()]
    returns.  A number is carried as its decimal form, the string
    [Number.prototype.toString] returns for it: the node never computes
    with numbers.  No value is a function. *)
Inductive JsVal : Type :=
| JNull
| JBool (b : bool)
| JNum (text : string)
| JStr (s : string)
| JInst (cls : string) (str : string)
| JArr (xs : list JsVal)
| JObj (kvs : list (string * JsVal)).

Definition Doc := list (string * JsVal).

(** Own-property lookup of a key in an object. *)
Fixpoint lookup {A : Type} (k : string) (kvs : list (string * A)) : option A :=
  match kvs with
  | [] => None
  | (k', v) :: r => if String.eqb k k' then Some v else lookup k r
  end.

(** Whether [k] is an own property of the object: what
    [Object.prototype.hasOwnProperty] answers for it. *)
Definition hasOwnProperty {A : Type} (kvs : list (string * A)) (k : string) : bool :=
  match lookup k kvs with Some _ => true | None => false end.

(** The method call [obj.hasOwnProperty(k)] on a document.  The method is
    looked up on the document first: a field of that name shadows the
    inherited method and, not being a function, cannot be called. *)
Definition callHasOwnProperty (obj : Doc) (k : string) : Result bool :=
  match lookup "hasOwnProperty" obj with
  | Some _ => Throw (typeError "updatedFields.hasOwnProperty is not a function")
  | None => Ok (hasOwnProperty obj k)
  end.

(** The method call [v.toString()]. On a document the method is looked up
    on the document first, so a field named [toString] shadows the
    inherited method and the call fails. An array joins the strings of its
    elements, null giving the empty string; converting an element that is a
    document with a field [toString] fails as well. *)
Fixpoint toString (v : JsVal) : Result string :=
  match v with
  | JNull => Throw (typeError "Cannot read properties of null (reading 'toString')")
  | JBool true => Ok "true"
  | JBool false => Ok "false"
  | JNum text => Ok text
  | JStr s => Ok s
  | JInst _ s => Ok s
  | JArr xs =>
      (fix join (l : list JsVal) : Result string :=
         let element (x : JsVal) : Result string :=
           match x with
           | JNull => Ok ""
           | JObj kvs =>
               match lookup "toString" kvs with
               | Some _ => Throw (typeError "Cannot convert object to primitive value")
               | None => Ok "[object Object]"
               end
           | _ => toString x
           end in
         match l with
         | [] => Ok ""
         | [x] => element x
         | x :: r =>
             bind (element x) (fun a => bind (join r) (fun b => Ok (a ++ "," ++ b)))
         end) xs
  | JObj kvs =>
      match lookup "toString" kvs with
      | Some _ =>
          Throw (typeError "change.documentKey?._id?.toString is not a function")
      | None => Ok "[object Object]"
      end
  end.

(** Strict equality [v === s] of a document value with a string. *)
Definition strictEqualsString (v : JsVal) (s : string) : bool :=
  match v with
  | JStr s' => String.eqb s' s
  | _ => false
  end.

(** ** Dates *)

Module JsDate.

(** A Date object: its time value in milliseconds since the epoch, or NaN
    ([Invalid]). *)
Inductive t : Type :=
| TimeValue (ms : Z)
| Invalid.

Definition msPerDay : Z := 86400000.

(** Year, month and day of a day number counted from 1970-01-01, in the
    proleptic Gregorian calendar. *)
Definition civil (days : Z) : Z * Z * Z :=
  let z := days + 719468 in
  let era := z / 146097 in
  let doe := z - era * 146097 in
  let yoe := (doe - doe / 1460 + doe / 36524 - doe / 146096) / 365 in
  let doy := doe - (365 * yoe + yoe / 4 - yoe / 100) in
  let mp := (5 * doy + 2) / 153 in
  let d := doy - (153 * mp + 2) / 5 + 1 in
  let m := if mp <? 10 then mp + 3 else mp - 9 in
  let y := yoe + era * 400 + (if m <=? 2 then 1 else 0) in
  (y, m, d).

Definition pad (w : nat) (n : Z) : string := JsString.padStart w (JsString.ofZ n).

Definition year (y : Z) : string :=
  if (0 <=? y) && (y <=? 9999) then pad 4 y
  else (if y <? 0 then "-" else "+") ++ pad 6 (Z.abs y).

Definition isoString (ms : Z) : string :=
  let '(y, m, d) := civil (ms / msPerDay) in
  let r := ms mod msPerDay in
  year y ++ "-" ++ pad 2 m ++ "-" ++ pad 2 d ++ "T" ++
  pad 2 (r / 3600000) ++ ":" ++ pad 2 (r / 60000 mod 60) ++ ":" ++
  pad 2 (r / 1000 mod 60) ++ "." ++ pad 3 (r mod 1000) ++ "Z".

(** [d.toISOString()]: a RangeError on an invalid date. *)
Definition toISOString (d : t) : Result string :=
  match d with
  | TimeValue ms => Ok (isoString ms)
  | Invalid => Throw (MkError "RangeError" (Some "Invalid time value") None None)
  end.


End JsDate.

(** ** Change events and the normalised output *)

(** [ns] and [to]: a namespace, whose parts may be missing. *)
Record Namespace : Type := {
  db : option string;
  coll : option string
}.

Record UpdateDescription : Type := {
  updatedFields : option Doc;
  removedFields : option (list string)
}.

(** [ChangeStreamDocument<any>], with the properties the node reads.  A
    property that is missing, undefined or null is [None]. *)
Record RawChangeEvent : Type := {
  operationType : string;
  wallTime : option JsDate.t;
  ns : option Namespace;
  documentKey : option Doc;
  fullDocument : option Doc;
  updateDescription : option UpdateDescription;
  to : option Namespace
}.

(** The values the properties of the output object hold. *)
Inductive OutVal : Type :=
| OUndefined
| OString (s : string)
| ODoc (d : Doc)
| ONames (l : list string)
| OEvent (ev : RawChangeEvent).

(** [Record<string, any>]: the properties in the order they were set. *)
Definition Output := list (string * OutVal).

(** [s || fallback] for a string that may be undefined: the empty string is
    falsy. *)
Definition orString (s : option string) (fallback : string) : string :=
  match s with
  | Some EmptyString => fallback
  | Some v => v
  | None => fallback
  end.

Definition orDoc (d : option Doc) : Doc :=
  match d with Some v => v | None => [] end.

(** [('documentKey' in change) ? change.documentKey?._id?.toString() : undefined] *)
Definition idString (key : option Doc) : Result OutVal :=
  match key with
  | None => Ok OUndefined
  | Some k =>
      match lookup "_id" k with
      | None => Ok OUndefined
      | Some JNull => Ok OUndefined
      | Some v => bind (toString v) (fun s => Ok (OString s))
      end
  end.

Definition optString (s : option string) : OutVal :=
  match s with Some v => OString v | None => OUndefined end.

(** [output.k = v]: the keys set by [formatChangeOutput] are all
    different, so a property is always added at the end. *)
Definition setProp (o : Output) (k : string) (v : OutVal) : Output := (o ++ [(k, v)])%list.

Section Normalizer.

(** [Date.now()] at the time of the call, and the node parameters
    [database] and [collection] that the closure captures. *)
Variable now : Z.
Variables database collectionName : string.

(** [new Date(change.wallTime || Date.now())]: a Date object is truthy
    even when invalid, and copying it keeps its time value; [Date.now()]
    is a time value. *)
Definition eventDate (change : RawChangeEvent) : JsDate.t :=
  match wallTime change with
  | Some d => d
  | None => JsDate.TimeValue now
  end.

Definition formatChangeOutput (change : RawChangeEvent) : Result Output :=
  bind (JsDate.toISOString (eventDate change)) (fun timestamp =>
  bind (idString (documentKey change)) (fun documentId =>
  let output : Output :=
    [ ("operation", OString (operationType change));
      ("timestamp", OString timestamp);
      ("database", OString (orString (match ns change with Some n => db n | None => None end)
                                     database));
      ("collection", OString (orString (match ns change with Some n => coll n | None => None end)
                                       collectionName));
      ("documentId", documentId) ] in
  let op := operationType change in
  Ok (if op ==? "insert" then
        setProp output "document" (ODoc (orDoc (fullDocument change)))
      else if op ==? "update" then
        let o1 := setProp output "modifiedFields"
                    (ODoc (orDoc (match updateDescription change with
                                  | Some u => updatedFields u | None => None end))) in
        let o2 := setProp o1 "removedFields"
                    (ONames (match updateDescription change with
                             | Some {| removedFields := Some l |} => l
                             | _ => [] end)) in
        match fullDocument change with
        | Some d => setProp o2 "documentAfterUpdate" (ODoc d)
        | None => o2
        end
      else if op ==? "replace" then
        setProp output "documentAfterReplace" (ODoc (orDoc (fullDocument change)))
      else if op ==? "delete" then output
      else if (op ==? "drop") || (op ==? "rename") then
        if op ==? "rename" then
          setProp output "newCollection"
            (optString (match to change with Some n => coll n | None => None end))
        else output
      else setProp output "details" (OEvent change)))).

End Normalizer.

(** ** Client-side filters *)

Record Filter : Type := {
  field : string;
  operator : string;
  value : string
}.

(** The callback of [filters.every]. *)
Definition conditionMet (updatedFields : Doc) (filter : Filter) : Result bool :=
  bind (callHasOwnProperty updatedFields (field filter)) (fun has =>
  if negb has then Ok false
  else
    let expectedValue := value filter in
    match lookup (field filter) updatedFields with
    | Some actualValue =>
        Ok (if operator filter ==? "equal" then strictEqualsString actualValue expectedValue
            else if operator filter ==? "notEqual"
                 then negb (strictEqualsString actualValue expectedValue)
            else false)
    | None =>
        (* [actualValue] is undefined *)
        Ok (if operator filter ==? "equal" then false
            else if operator filter ==? "notEqual" then true
            else false)
    end).

(** [array.every(callback)]: the elements in order, up to the first one the
    callback rejects or fails on. *)
Fixpoint every {A : Type} (callback : A -> Result bool) (l : list A) : Result bool :=
  match l with
  | [] => Ok true
  | x :: r => bind (callback x) (fun b => if b then every callback r else Ok false)
  end.

(** The ['change'] listener: the payloads it hands to [this.emit], or the
    exception that leaves it. *)
Definition onChange (now : Z) (database collectionName : string) (filters : list Filter)
    (change : RawChangeEvent) : Result (list Output) :=
  bind (formatChangeOutput now database collectionName change) (fun formattedOutput =>
    if (0 <? List.length filters)%nat && (operationType change ==? "update") then
      let updatedFields :=
        orDoc (match updateDescription change with
               | Some u => updatedFields u | None => None end) in
      bind (every (conditionMet updatedFields) filters) (fun allConditionsMet =>
        if allConditionsMet then Ok [formattedOutput] else Ok [])
    else Ok [formattedOutput]).

(** ** The aggregation pipeline *)

(** The operators the node's [$match] stages use. *)
Inductive Cond : Type :=
| CNe (v : JsVal)
| CIn (vs : list JsVal)
| CExists (b : bool).

Inductive Query : Type :=
| QCond (path : string) (c : Cond)
| QIs (path : string) (v : JsVal)
| QOr (qs : list Query)
| QAnd (qs : list Query).

Inductive Stage : Type :=
| Match (q : Query).

Definition supportedTypes : list string :=
  ["delete"; "drop"; "insert"; "rename"; "replace"; "update"].

(** [operationTypes.includes('update')] *)
Definition includes (l : list string) (s : string) : bool :=
  existsb (fun x => x ==? s) l.

Definition operationStage (operationTypes : list string) : Stage :=
  Match (QCond "operationType" (CIn (map JStr operationTypes))).

Definition fieldStage (fieldList : list string) : Stage :=
  Match (QOr
    [ QCond "operationType" (CNe (JStr "update"));
      QAnd [ QIs "operationType" (JStr "update");
             QCond "updateDescription.updatedFields" (CExists true);
             QOr (map (fun field =>
                         QCond ("updateDescription.updatedFields." ++ field) (CExists true))
                      fieldList) ] ]).

Definition fieldList (fields : string) : list string :=
  map JsString.trim (JsString.split "," fields).

(** The pipeline handed to [collection.watch]. *)
Definition buildPipeline (fields : string) (operationTypes : list string) : list Stage :=
  let pipeline : list Stage := [] in
  let pipeline :=
    if (0 <? List.length operationTypes)%nat && (List.length operationTypes <? 6)%nat
    then (pipeline ++ [operationStage operationTypes])%list
    else pipeline in
  let pipeline :=
    if negb (fields ==? "*") && includes operationTypes "update"
    then (pipeline ++ [fieldStage (fieldList fields)])%list
    else pipeline in
  pipeline.

(** *** What the server does with a [$match] stage

    The server evaluates a stage on the change event as a document.  A
    dotted path is followed one component at a time through embedded
    documents; through an array it is followed into the element at that
    index and into every element that is a document. *)
Module Server.

Definition optField (k : string) (v : option JsVal) : Doc :=
  match v with Some x => [(k, x)] | None => [] end.

Definition optStr (s : option string) : option JsVal := option_map JStr s.

Definition namespaceDoc (n : Namespace) : JsVal :=
  JObj (optField "db" (optStr (db n)) ++ optField "coll" (optStr (coll n))).

Definition updateDoc (u : UpdateDescription) : JsVal :=
  JObj (optField "updatedFields" (option_map JObj (updatedFields u)) ++
        optField "removedFields" (option_map (fun l => JArr (map JStr l)) (removedFields u))).

(** The event as a document. *)
Definition eventDoc (ev : RawChangeEvent) : JsVal :=
  JObj (("operationType", JStr (operationType ev)) ::
        optField "updateDescription" (option_map updateDoc (updateDescription ev)) ++
        optField "ns" (option_map namespaceDoc (ns ev)) ++
        optField "documentKey" (option_map JObj (documentKey ev)) ++
        optField "fullDocument" (option_map JObj (fullDocument ev)) ++
        optField "to" (option_map namespaceDoc (to ev))).

Definition arrayIndex (c : string) : option nat :=
  option_map Nat.of_uint (NilZero.uint_of_string c).

(** The values a path leads to. *)
Fixpoint resolve (comps : list string) (v : JsVal) {struct comps} : list JsVal :=
  match comps with
  | [] => [v]
  | c :: rest =>
      let inDoc (kvs : Doc) : list JsVal :=
        match lookup c kvs with
        | Some v' => resolve rest v'
        | None => []
        end in
      match v with
      | JObj kvs => inDoc kvs
      | JArr xs =>
          (match arrayIndex c with
           | Some i => match nth_error xs i with
                       | Some x => resolve rest x
                       | None => []
                       end
           | None => []
           end ++
           flat_map (fun x => match x with JObj kvs => inDoc kvs | _ => [] end) xs)%list
      | _ => []
      end
  end.

Definition at_path (path : string) (doc : JsVal) : list JsVal :=
  resolve (JsString.split "." path) doc.

Definition pathExists (path : string) (doc : JsVal) : bool :=
  match at_path path doc with [] => false | _ => true end.

Fixpoint valEqb (a b : JsVal) {struct a} : bool :=
  match a, b with
  | JNull, JNull => true
  | JBool x, JBool y => Bool.eqb x y
  | JNum x, JNum y => x ==? y
  | JStr x, JStr y => x ==? y
  | JInst c x, JInst d y => (c ==? d) && (x ==? y)
  | JArr xs, JArr ys =>
      (fix all (l : list JsVal) (r : list JsVal) : bool :=
         match l, r with
         | [], [] => true
         | x :: l', y :: r' => valEqb x y && all l' r'
         | _, _ => false
         end) xs ys
  | JObj xs, JObj ys =>
      (fix all (l : Doc) (r : Doc) : bool :=
         match l, r with
         | [], [] => true
         | (k, x) :: l', (k', y) :: r' => (k ==? k') && valEqb x y && all l' r'
         | _, _ => false
         end) xs ys
  | _, _ => false
  end.

(** [{ path: v }]: some value at the path, or an element of an array
    there, equals [v]; a missing path equals null. *)
Definition isAt (path : string) (v : JsVal) (doc : JsVal) : bool :=
  let found := at_path path doc in
  let candidates :=
    (found ++ flat_map (fun x => match x with JArr xs => xs | _ => [] end) found)%list in
  existsb (valEqb v) candidates ||
  (match v, found with JNull, [] => true | _, _ => false end).

Definition evalCond (path : string) (c : Cond) (doc : JsVal) : bool :=
  match c with
  | CNe v => negb (isAt path v doc)
  | CIn vs => existsb (fun v => isAt path v doc) vs
  | CExists b => Bool.eqb (pathExists path doc) b
  end.

Fixpoint evalQuery (q : Query) (doc : JsVal) {struct q} : bool :=
  match q with
  | QCond path c => evalCond path c doc
  | QIs path v => isAt path v doc
  | QOr qs => existsb (fun q' => evalQuery q' doc) qs
  | QAnd qs => forallb (fun q' => evalQuery q' doc) qs
  end.

(** Whether the stage lets the event through. *)
Definition passes (s : Stage) (ev : RawChangeEvent) : bool :=
  let 'Match q := s in evalQuery q (eventDoc ev).

End Server.

(** ** Start-up: connection and validation *)

(** A double quote. *)
Definition dq : string := String (ascii_of_nat 34) EmptyString.

Definition quoted (s : string) : string := dq ++ s ++ dq.

(** What n8n-workflow's [NodeApiError] makes of the message it is given:
    the message of the error, from the error it wraps, if any, and the
    message text.  The class is not part of the repository; it replaces,
    for one, a text that contains a common error code (ECONNREFUSED,
    ENOTFOUND, ...) by a text of its own. *)
Definition Library : Type := option JsError -> string -> string.

(** [new NodeApiError(this.getNode(), { message })] *)
Definition nodeApiError (n8n : Library) (message : string) : JsError :=
  MkError "NodeApiError" (Some (n8n None message)) None None.

(** [new NodeApiError(this.getNode(), error, { message })]: when [error]
    is a NodeApiError already, the constructor returns it as it is;
    otherwise the new error wraps [error]. *)
Definition nodeApiErrorFrom (n8n : Library) (error : JsError) (message : string) : JsError :=
  if errName error ==? "NodeApiError" then error
  else MkError "NodeApiError" (Some (n8n (Some error) message)) None (Some error).

(** [error.message?.includes("not authorized") || error.codeName === "Unauthorized"] *)
Definition notAuthorized (error : JsError) : bool :=
  match errMessage error with
  | Some m => JsString.includes "not authorized" m
  | None => false
  end ||
  match errCodeName error with
  | Some c => c ==? "Unauthorized"
  | None => false
  end.

(** [`${error.message}`] *)
Definition messageText (error : JsError) : string :=
  match errMessage error with Some m => m | None => "undefined" end.

(** What the MongoDB deployment answers: [client.connect()] for a
    connection string, [db.command({ ping: 1 })] for a database, and the
    names [db.listCollections({ name }).toArray()] returns. *)
Record Deployment : Type := {
  connect : string -> Result unit;
  ping : string -> Result unit;
  listCollections : string -> string -> Result (list string)
}.

Definition msgNotAuthorizedDatabase (database : string) : string :=
  "Not authorized to access database " ++ quoted database ++
  ". Check if the database exists and your credentials have sufficient permissions.".

Definition msgNoAccess (database : string) (error : JsError) : string :=
  "Database " ++ quoted database ++ " could not be accessed: " ++ messageText error.

Definition msgNotFound (database collectionName : string) : string :=
  "Collection " ++ quoted collectionName ++ " does not exist in database " ++
  quoted database ++ ".".

Definition msgNotAuthorizedList (database : string) : string :=
  "Not authorized to list collections in " ++ quoted database ++
  ". Check if your credentials have sufficient permissions.".

Definition msgVerifyFailed (collectionName : string) : string :=
  "Failed to verify if collection " ++ quoted collectionName ++ " exists.".

Section Startup.

Variable n8n : Library.
Variable mongo : Deployment.
Variables database collectionName : string.

(** The ping [try]/[catch]. *)
Definition checkDatabase : Result unit :=
  tryCatch (ping mongo database) (fun error =>
    if notAuthorized error
    then Throw (nodeApiError n8n (msgNotAuthorizedDatabase database))
    else Throw (nodeApiError n8n (msgNoAccess database error))).

(** The [listCollections] [try]/[catch]: the error thrown for an empty
    answer is thrown inside the [try]. *)
Definition checkCollection : Result unit :=
  tryCatch
    (bind (listCollections mongo database collectionName) (fun collections =>
       if (List.length collections =? 0)%nat
       then Throw (nodeApiError n8n (msgNotFound database collectionName))
       else Ok tt))
    (fun error =>
       if notAuthorized error
       then Throw (nodeApiError n8n (msgNotAuthorizedList database))
       else Throw (nodeApiErrorFrom n8n error (msgVerifyFailed collectionName))).

(** The outer [try]/[catch] around both checks. *)
Definition validate : Result unit :=
  tryCatch
    (bind checkDatabase (fun _ => checkCollection))
    (fun error =>
       if errName error ==? "NodeApiError" then Throw error
       else Throw (nodeApiErrorFrom n8n error
                     "Failed to verify database or collection existence.")).

(** The change stream [collection.watch(pipeline)] opens. *)
Record Subscription : Type := {
  watchedDatabase : string;
  watchedCollection : string;
  pipeline : list Stage
}.

(** [trigger], up to the change stream it opens. The calls outside every
    [try] ([getCredentials], [client.db], [db.collection] and
    [collection.watch]) are taken to return. *)
Definition trigger (credentials : option string) (fields : string)
    (operationTypes : list string) : Result Subscription :=
  match credentials with
  | None => Throw (nodeApiError n8n "No credentials were returned!")
  | Some uri =>
      bind (tryCatch (connect mongo uri) (fun error =>
              Throw (nodeApiErrorFrom n8n error
                "Failed to connect to MongoDB. Please check your credentials and connection settings.")))
        (fun _ =>
      bind validate (fun _ =>
      Ok {| watchedDatabase := database;
            watchedCollection := collectionName;
            pipeline := buildPipeline fields operationTypes |}))
  end.

End Startup.

(** ** Shutdown *)

Inductive CloseCall : Type :=
| CloseChangeStream
| CloseClient.

(** The two handles: whether each is still open, and the close calls made
    so far, oldest first. *)
Record Handles : Type := {
  streamOpen : bool;
  clientOpen : bool;
  calls : list CloseCall
}.

(** What the driver's [changeStream.close()] and [client.close()] answer,
    given whether the handle is still open. *)
Record Closers : Type := {
  changeStreamClose : bool -> Result unit;
  clientClose : bool -> Result unit
}.

(** [closeFunction]: the handles afterwards and the outcome. A close that
    resolves leaves its handle closed. *)
Definition closeFunction (drv : Closers) (h : Handles) : Handles * Result unit :=
  let h1 := {| streamOpen := streamOpen h; clientOpen := clientOpen h;
               calls := (calls h ++ [CloseChangeStream])%list |} in
  match changeStreamClose drv (streamOpen h) with
  | Throw e => (h1, Throw e)
  | Ok _ =>
      let h2 := {| streamOpen := false; clientOpen := clientOpen h;
                   calls := (calls h1 ++ [CloseClient])%list |} in
      match clientClose drv (clientOpen h) with
      | Throw e => (h2, Throw e)
      | Ok _ => ({| streamOpen := false; clientOpen := false; calls := calls h2 |}, Ok tt)
      end
  end.

(** ** Notions the properties are stated with *)


(** The changed-fields map of an event: empty when the event has none. *)
Definition changedFields (ev : RawChangeEvent) : Doc :=
  orDoc (match updateDescription ev with
         | Some u => updatedFields u
         | None => None
         end).

(** A filter condition is satisfied by a changed-fields map: the field is
    present and its value is strictly equal to the condition's string for
    [equal], strictly different for [notEqual]. *)
Definition satisfied (changed : Doc) (f : Filter) : Prop :=
  exists v, lookup (field f) changed = Some v /\
    ((operator f = "equal" /\ v = JStr (value f)) \/
     (operator f = "notEqual" /\ v <> JStr (value f))).

(** Whether the condition is satisfied, as a boolean. *)
Definition satisfiedb (changed : Doc) (f : Filter) : bool :=
  match lookup (field f) changed with
  | Some v =>
      if operator f ==? "equal" then strictEqualsString v (value f)
      else if operator f ==? "notEqual" then negb (strictEqualsString v (value f))
      else false
  | None => false
  end.

(** The error of calling a changed field named [hasOwnProperty]. *)
Definition hasOwnPropertyError : JsError :=
  typeError "updatedFields.hasOwnProperty is not a function".

(** ** Sample data *)

Definition sampleUpdate (changed : Doc) : RawChangeEvent :=
  {| operationType := "update";
     wallTime := Some (JsDate.TimeValue 1700000000000);
     ns := Some {| db := Some "d"; coll := Some "c" |};
     documentKey := Some [("_id", JStr "1")];
     fullDocument := None;
     updateDescription := Some {| updatedFields := Some changed; removedFields := Some [] |};
     to := None |}.

Definition sampleInsert : RawChangeEvent :=
  {| operationType := "insert";
     wallTime := None;
     ns := Some {| db := Some "d"; coll := Some "c" |};
     documentKey := Some [("_id", JStr "1")];
     fullDocument := Some [("_id", JStr "1"); ("status", JStr "new")];
     updateDescription := None;
     to := None |}.

Definition statusIs (v : string) : Filter :=
  {| field := "status"; operator := "equal"; value := v |}.

Definition statusIsNot (v : string) : Filter :=
  {| field := "status"; operator := "notEqual"; value := v |}.


(** ** The normalised output record *)

(** The operation types [formatChangeOutput] has a case for. *)
Definition recognised : list string :=
  ["insert"; "update"; "replace"; "delete"; "drop"; "rename"].




Definition isNames (v : option OutVal) : bool :=
  match v with Some (ONames _) => true | _ => false end.









Definition sampleRename : RawChangeEvent :=
  {| operationType := "rename";
     wallTime := Some (JsDate.TimeValue 0);
     ns := Some {| db := Some "d"; coll := Some "c" |};
     documentKey := None;
     fullDocument := None;
     updateDescription := None;
     to := Some {| db := Some "d"; coll := Some "newName" |} |}.

(** ** Stages of the pipeline *)

(** A stage that restricts the operation type. *)
Definition isOperationStage (s : Stage) : Prop :=
  exists l, s = operationStage l.

(** A stage that restricts the changed fields. *)
Definition isFieldStage (s : Stage) : Prop :=
  exists l, s = fieldStage l.

(** The path of a monitored field in the event. *)
Definition fieldPath (field : string) : string :=
  "updateDescription.updatedFields." ++ field.

Definition sampleNested : RawChangeEvent :=
  sampleUpdate [("address.city", JStr "Oslo")].

(** ** Sample deployments and drivers *)

(** A deployment that accepts the connection and the ping, and knows the
    given collections of every database. *)
Definition deploymentWith (collections : list string) : Deployment :=
  {| connect := fun _ => Ok tt;
     ping := fun _ => Ok tt;
     listCollections := fun _ name =>
       Ok (filter (fun c => c ==? name) collections) |}.



(** A driver whose closes always resolve. *)
Definition quietClosers : Closers :=
  {| changeStreamClose := fun _ => Ok tt;
     clientClose := fun _ => Ok tt |}.

Definition streamError : JsError :=
  MkError "MongoError" (Some "connection reset") None None.

(** A driver whose change stream fails to close. *)
Definition brokenStream : Closers :=
  {| changeStreamClose := fun _ => Throw streamError;
     clientClose := fun _ => Ok tt |}.

Definition openHandles : Handles :=
  {| streamOpen := true; clientOpen := true; calls := [] |}.

(** ** Further notions *)

(** The message of the outer [catch] of the validation. *)
Definition msgVerifyGeneral : string :=
  "Failed to verify database or collection existence.".

Definition msgConnect : string :=
  "Failed to connect to MongoDB. Please check your credentials and connection settings.".

(** A driver error, as [client.connect()] or a command rejects with. *)
Definition driverError (message : string) (codeName : option string) : JsError :=
  MkError "MongoServerError" (Some message) codeName None.

(** A deployment on which the ping is rejected. *)
Definition deploymentPingFails (e : JsError) : Deployment :=
  {| connect := fun _ => Ok tt;
     ping := fun _ => Throw e;
     listCollections := fun _ _ => Ok [] |}.

(** A deployment on which listing the collections is rejected. *)
Definition deploymentListFails (e : JsError) : Deployment :=
  {| connect := fun _ => Ok tt;
     ping := fun _ => Ok tt;
     listCollections := fun _ _ => Throw e |}.

(** A deployment that refuses the connection. *)
Definition deploymentDown (e : JsError) : Deployment :=
  {| connect := fun _ => Throw e;
     ping := fun _ => Ok tt;
     listCollections := fun _ name => Ok [name] |}.

(** The server applies the stages of a pipeline one after the other: an
    event is delivered when every stage lets it through. *)
Definition passesPipeline (pipeline : list Stage) (ev : RawChangeEvent) : bool :=
  forallb (fun s => Server.passes s ev) pipeline.

(** Some monitored path exists in the event. *)
Definition monitoredChange (fields : string) (ev : RawChangeEvent) : bool :=
  existsb (fun f => Server.pathExists (fieldPath f) (Server.eventDoc ev)) (fieldList fields).

(** [names.join(',')] *)
Fixpoint joinComma (names : list string) : string :=
  match names with
  | [] => ""
  | [n] => n
  | n :: r => n ++ String "," (joinComma r)
  end.

Definition startsWithSpace (s : string) : bool :=
  match s with
  | String c _ => JsString.isWhiteSpace c
  | EmptyString => false
  end.

Fixpoint endsWithSpace (s : string) : bool :=
  match s with
  | EmptyString => false
  | String c EmptyString => JsString.isWhiteSpace c
  | String _ r => endsWithSpace r
  end.

Definition sampleDelete : RawChangeEvent :=
  {| operationType := "delete";
     wallTime := None;
     ns := Some {| db := Some "d"; coll := Some "c" |};
     documentKey := Some [("_id", JStr "1")];
     fullDocument := None;
     updateDescription := None;
     to := None |}.

(** [Object.keys(output)] *)
Definition keys (out : Output) : list string := map fst out.

(** The properties every output starts with. *)
Definition baseKeys : list string :=
  ["operation"; "timestamp"; "database"; "collection"; "documentId"].

Definition priorityIs (v : string) : Filter :=
  {| field := "priority"; operator := "equal"; value := v |}.

(** The defaults of the node parameters [fields], [operationTypes] and
    [filters.filterValues]. *)
Definition defaultFields : string := "*".
Definition defaultOperationTypes : list string := ["update"].
Definition defaultFilters : list Filter := [].

Definition clientError : JsError :=
  MkError "MongoError" (Some "topology destroyed") None None.

(** A driver whose client fails to close. *)
Definition brokenClient : Closers :=
  {| changeStreamClose := fun _ => Ok tt;
     clientClose := fun _ => Throw clientError |}.

Definition condition (f op v : string) : Filter :=
  {| field := f; operator := op; value := v |}.

(** ** Events on which a call fails *)

(** An update that changes a field named [hasOwnProperty]. *)
Definition sampleShadowed : RawChangeEvent :=
  sampleUpdate [("hasOwnProperty", JStr "x")].

(** An insert whose [_id] is a document with a field named [toString]. *)
Definition sampleUnprintable : RawChangeEvent :=
  {| operationType := "insert";
     wallTime := None;
     ns := Some {| db := Some "d"; coll := Some "c" |};
     documentKey := Some [("_id", JObj [("toString", JNum "1")])];
     fullDocument := Some [("_id", JObj [("toString", JNum "1")])];
     updateDescription := None;
     to := None |}.

Definition toStringError : JsError :=
  typeError "change.documentKey?._id?.toString is not a function".

(** A library that leaves every message as it is given. *)
Definition verbatim : Library := fun _ message => message.

(** * Properties *)

Lemma strictEqualsString_spec (v : JsVal) (s : string) :
  strictEqualsString v s = true <-> v = JStr s.
Proof.
  destruct v; simpl; try (split; [discriminate | intros H; discriminate H]).
  rewrite String.eqb_eq. split; [intros -> | intros [= ->]]; reflexivity.
Qed.

Lemma satisfiedb_spec (changed : Doc) (f : Filter) :
  satisfiedb changed f = true <-> satisfied changed f.
Proof.
  unfold satisfiedb, satisfied.
  destruct (lookup (field f) changed) as [v|].
  - destruct (operator f ==? "equal") eqn:E1.
    + apply String.eqb_eq in E1. rewrite strictEqualsString_spec. split.
      * intros ->. exists (JStr (value f)). split; [reflexivity | left; split; [assumption | reflexivity]].
      * intros (w & [= <-] & [[_ H] | [H _]]); [assumption | rewrite E1 in H; discriminate H].
    + apply String.eqb_neq in E1.
      destruct (operator f ==? "notEqual") eqn:E2.
      * apply String.eqb_eq in E2. rewrite negb_true_iff, <- not_true_iff_false,
          strictEqualsString_spec. split.
        -- intros H. exists v. split; [reflexivity | right; split; assumption].
        -- intros (w & [= <-] & [[H _] | [_ H]]); [contradiction | assumption].
      * apply String.eqb_neq in E2. split; [discriminate |].
        intros (w & _ & [[H _] | [H _]]); contradiction.
  - split; [discriminate | intros (w & H & _); discriminate H].
Qed.

Lemma forallb_satisfied (changed : Doc) (filters : list Filter) :
  forallb (satisfiedb changed) filters = true <-> Forall (satisfied changed) filters.
Proof.
  rewrite forallb_forall, Forall_forall.
  split; intros H f Hf; apply satisfiedb_spec, H, Hf.
Qed.

(** The callback fails on a map with a field named [hasOwnProperty], and
    decides the condition on every other map. *)
Lemma conditionMet_cases (changed : Doc) (f : Filter) :
  conditionMet changed f =
  match lookup "hasOwnProperty" changed with
  | Some _ => Throw hasOwnPropertyError
  | None => Ok (satisfiedb changed f)
  end.
Proof.
  unfold conditionMet, callHasOwnProperty, satisfiedb, hasOwnProperty.
  destruct (lookup "hasOwnProperty" changed); [reflexivity |]. cbn [bind].
  destruct (lookup (field f) changed); reflexivity.
Qed.

Lemma every_plain (changed : Doc) (filters : list Filter) :
  lookup "hasOwnProperty" changed = None ->
  every (conditionMet changed) filters = Ok (forallb (satisfiedb changed) filters).
Proof.
  intros H. induction filters as [|f fs IH]; [reflexivity |].
  cbn [every forallb]. rewrite conditionMet_cases, H. cbn [bind].
  destruct (satisfiedb changed f); [exact IH | reflexivity].
Qed.

Lemma every_shadowed (changed : Doc) (filters : list Filter) (v : JsVal) :
  lookup "hasOwnProperty" changed = Some v ->
  filters <> [] ->
  every (conditionMet changed) filters = Throw hasOwnPropertyError.
Proof.
  intros H Hne. destruct filters as [|f fs]; [contradiction |].
  cbn [every]. rewrite conditionMet_cases, H. reflexivity.
Qed.

(** The examples of the filter engine. *)
Example matches_no_filter :
  every (conditionMet [("other", JStr "x")]) [] = Ok true.
Proof. reflexivity. Qed.

Example matches_equal :
  every (conditionMet [("status", JStr "done")]) [statusIs "done"] = Ok true.
Proof. reflexivity. Qed.

Example matches_absent :
  every (conditionMet [("other", JStr "x")]) [statusIs "done"] = Ok false.
Proof. reflexivity. Qed.

Example matches_notEqual :
  every (conditionMet [("status", JStr "pending")]) [statusIsNot "done"] = Ok true.
Proof. reflexivity. Qed.

Example update_filtered_out :
  onChange 0 "d" "c" [statusIs "done"] (sampleUpdate [("status", JStr "pending")]) = Ok [].
Proof. reflexivity. Qed.

Example update_passes :
  exists out,
    onChange 0 "d" "c" [statusIs "done"] (sampleUpdate [("status", JStr "done")]) = Ok [out] /\
    lookup "modifiedFields" out = Some (ODoc [("status", JStr "done")]).
Proof. eexists. split; reflexivity. Qed.

(** ** The client filter engine *)

(** What the listener emits for an update event. *)
Lemma onChange_update (now : Z) (database collectionName : string)
    (filters : list Filter) (ev : RawChangeEvent) (out : Output) :
  formatChangeOutput now database collectionName ev = Ok out ->
  operationType ev = "update" ->
  filters = [] \/ lookup "hasOwnProperty" (changedFields ev) = None ->
  onChange now database collectionName filters ev =
  if forallb (satisfiedb (changedFields ev)) filters then Ok [out] else Ok [].
Proof.
  intros Hout Hop Hplain. unfold onChange. rewrite Hout, Hop. cbn [bind].
  fold (changedFields ev). rewrite String.eqb_refl, andb_true_r.
  destruct filters as [|f fs]; [reflexivity |].
  destruct Hplain as [H | H]; [discriminate H |].
  cbn [List.length Nat.ltb Nat.leb]. rewrite (every_plain _ _ H). cbn [bind].
  destruct (forallb _ (f :: fs)); reflexivity.
Qed.

Lemma onChange_update_shadowed (now : Z) (database collectionName : string)
    (filters : list Filter) (ev : RawChangeEvent) (out : Output) (v : JsVal) :
  formatChangeOutput now database collectionName ev = Ok out ->
  operationType ev = "update" ->
  filters <> [] ->
  lookup "hasOwnProperty" (changedFields ev) = Some v ->
  onChange now database collectionName filters ev = Throw hasOwnPropertyError.
Proof.
  intros Hout Hop Hne H. unfold onChange. rewrite Hout, Hop. cbn [bind].
  fold (changedFields ev). rewrite String.eqb_refl, andb_true_r.
  destruct filters as [|f fs]; [contradiction |].
  cbn [List.length Nat.ltb Nat.leb]. rewrite (every_shadowed _ _ _ H Hne). reflexivity.
Qed.

Lemma onChange_other (now : Z) (database collectionName : string)
    (filters : list Filter) (ev : RawChangeEvent) (out : Output) :
  formatChangeOutput now database collectionName ev = Ok out ->
  operationType ev <> "update" ->
  onChange now database collectionName filters ev = Ok [out].
Proof.
  intros Hout Hop. unfold onChange. rewrite Hout. cbn [bind].
  apply String.eqb_neq in Hop. rewrite Hop, andb_false_r. reflexivity.
Qed.

Lemma onChange_format_fails (now : Z) (database collectionName : string)
    (filters : list Filter) (ev : RawChangeEvent) (e : JsError) :
  formatChangeOutput now database collectionName ev = Throw e ->
  onChange now database collectionName filters ev = Throw e.
Proof. intros H. unfold onChange. rewrite H. reflexivity. Qed.







(** ** The event normaliser *)

Ltac by_operation ev :=
  destruct (operationType ev ==? "insert") eqn:?;
  [| destruct (operationType ev ==? "update") eqn:?;
     [| destruct (operationType ev ==? "replace") eqn:?;
        [| destruct (operationType ev ==? "delete") eqn:?;
           [| destruct (operationType ev ==? "drop") eqn:?;
              destruct (operationType ev ==? "rename") eqn:? ]]]].

Ltac operation_facts :=
  repeat match goal with
         | H : (_ ==? _) = true |- _ => apply String.eqb_eq in H
         | H : (_ ==? _) = false |- _ => apply String.eqb_neq in H
         end.

Example insert_scenario :
  formatChangeOutput 0 "x" "y" sampleInsert =
  Ok [ ("operation", OString "insert");
       ("timestamp", OString "1970-01-01T00:00:00.000Z");
       ("database", OString "d");
       ("collection", OString "c");
       ("documentId", OString "1");
       ("document", ODoc [("_id", JStr "1"); ("status", JStr "new")]) ].
Proof. reflexivity. Qed.

Example rename_scenario :
  exists out, formatChangeOutput 0 "x" "y" sampleRename = Ok out /\
              lookup "newCollection" out = Some (OString "newName").
Proof. eexists. split; reflexivity. Qed.




(** The output, from the timestamp and the document id. *)
Lemma formatChangeOutput_inv (now : Z) (database collectionName : string)
    (ev : RawChangeEvent) (out : Output) :
  formatChangeOutput now database collectionName ev = Ok out ->
  exists base,
    keys base = baseKeys /\
    out =
    (let op := operationType ev in
     if op ==? "insert" then
       setProp base "document" (ODoc (orDoc (fullDocument ev)))
     else if op ==? "update" then
       let o2 := setProp (setProp base "modifiedFields" (ODoc (changedFields ev)))
                   "removedFields"
                   (ONames (match updateDescription ev with
                            | Some {| removedFields := Some l |} => l
                            | _ => [] end)) in
       match fullDocument ev with
       | Some d => setProp o2 "documentAfterUpdate" (ODoc d)
       | None => o2
       end
     else if op ==? "replace" then
       setProp base "documentAfterReplace" (ODoc (orDoc (fullDocument ev)))
     else if op ==? "delete" then base
     else if (op ==? "drop") || (op ==? "rename") then
       if op ==? "rename" then
         setProp base "newCollection"
           (optString (match to ev with Some n => coll n | None => None end))
       else base
     else setProp base "details" (OEvent ev)).
Proof.
  unfold formatChangeOutput.
  destruct (JsDate.toISOString (eventDate now ev)) as [ts|e]; cbn [bind]; [| discriminate].
  destruct (idString (documentKey ev)) as [d|e]; cbn [bind]; [| discriminate].
  intros [= <-]. eexists. split; [| reflexivity]. reflexivity.
Qed.


(** The properties an output has for its operation. *)
Lemma formatChangeOutput_operation (now : Z) (database collectionName : string)
    (ev : RawChangeEvent) (out : Output) :
  formatChangeOutput now database collectionName ev = Ok out ->
  (operationType ev = "insert" ->
     lookup "document" out = Some (ODoc (orDoc (fullDocument ev)))) /\
  (operationType ev = "update" ->
     lookup "modifiedFields" out = Some (ODoc (changedFields ev)) /\
     isNames (lookup "removedFields" out) = true) /\
  (operationType ev = "replace" ->
     lookup "documentAfterReplace" out = Some (ODoc (orDoc (fullDocument ev)))) /\
  (operationType ev = "rename" ->
     lookup "newCollection" out =
       Some (optString (match to ev with Some n => coll n | None => None end))) /\
  (~ In (operationType ev) recognised -> lookup "details" out = Some (OEvent ev)).
Proof.
  intros H. destruct (formatChangeOutput_inv _ _ _ _ _ H) as (base & Hb & ->).
  destruct base as [|[k1 v1] [|[k2 v2] [|[k3 v3] [|[k4 v4] [|[k5 v5] [|? ?]]]]]];
    try discriminate Hb.
  cbn in Hb. injection Hb as -> -> -> -> ->. cbn zeta.
  split; [| split; [| split; [| split]]]; intros Hop.
  1-4: rewrite Hop; cbn [String.eqb Ascii.eqb Bool.eqb orb];
       try destruct (fullDocument ev); try split; reflexivity.
  unfold recognised in Hop. clear H.
  by_operation ev; cbn [orb]; operation_facts;
    try (exfalso; apply Hop; cbn; intuition congruence).
  reflexivity.
Qed.











(** ** The pipeline builder *)

Lemma includes_In (l : list string) (s : string) :
  includes l s = true <-> In s l.
Proof.
  unfold includes. rewrite existsb_exists. split.
  - intros (x & Hx & E). apply String.eqb_eq in E. subst. exact Hx.
  - intros H. exists s. split; [exact H | apply String.eqb_refl].
Qed.

Lemma NoDup_supportedTypes : NoDup supportedTypes.
Proof.
  unfold supportedTypes.
  repeat (constructor; [cbn; intros H;
    repeat (destruct H as [H | H]; [discriminate H |]); exact H |]).
  constructor.
Qed.

(** The value at [operationType] is the event's operation type. *)
Lemma isAt_operationType (o : string) (ev : RawChangeEvent) :
  Server.isAt "operationType" (JStr o) (Server.eventDoc ev) = (o ==? operationType ev).
Proof.
  unfold Server.isAt, Server.at_path, Server.eventDoc.
  change (JsString.split "." "operationType") with ["operationType"].
  cbn. rewrite !orb_false_r. reflexivity.
Qed.

Lemma operationStage_passes (ops : list string) (ev : RawChangeEvent) :
  Server.passes (operationStage ops) ev = true <-> In (operationType ev) ops.
Proof.
  unfold Server.passes, operationStage.
  cbn [Server.evalQuery Server.evalCond].
  rewrite existsb_exists. split.
  - intros (v & Hv & E). apply in_map_iff in Hv. destruct Hv as (o & <- & Ho).
    rewrite isAt_operationType in E. apply String.eqb_eq in E. subst. exact Ho.
  - intros H. exists (JStr (operationType ev)). split.
    + apply in_map. exact H.
    + rewrite isAt_operationType. apply String.eqb_refl.
Qed.

Lemma operationStage_not_fieldStage (ops l : list string) :
  operationStage ops <> fieldStage l.
Proof. discriminate. Qed.

(** The pipeline, by the two tests of the builder. *)
Lemma buildPipeline_cases (fields : string) (ops : list string) :
  buildPipeline fields ops =
  ((if (0 <? List.length ops)%nat && (List.length ops <? 6)%nat
    then [operationStage ops] else []) ++
   (if negb (fields ==? "*") && includes ops "update"
    then [fieldStage (fieldList fields)] else []))%list.
Proof.
  unfold buildPipeline.
  destruct ((0 <? List.length ops)%nat && (List.length ops <? 6)%nat);
    destruct (negb (fields ==? "*") && includes ops "update"); reflexivity.
Qed.

(** C3. When the selected operation types (a list without repetition of
    supported types) are a strict, non-empty subset of the six supported
    types, the pipeline starts with a stage that lets through exactly the
    events whose operation type is selected; when all six are selected, no
    stage of the pipeline restricts the operation type. *)
Theorem operation_stage_iff_strict_subset (fields : string) (ops : list string) :
  (NoDup ops -> incl ops supportedTypes -> ops <> [] -> ~ incl supportedTypes ops ->
     exists rest,
       buildPipeline fields ops = operationStage ops :: rest /\
       forall ev, Server.passes (operationStage ops) ev = true <-> In (operationType ev) ops) /\
  (incl supportedTypes ops ->
     forall st, In st (buildPipeline fields ops) -> ~ isOperationStage st).
Proof.
  rewrite buildPipeline_cases. split.
  - intros Hnd Hincl Hne Hstrict.
    assert (Hlen : (0 < List.length ops < 6)%nat).
    { split.
      - destruct ops; [contradiction | cbn; lia].
      - pose proof (NoDup_incl_length Hnd Hincl) as Hle. cbn in Hle.
        destruct (Nat.eq_dec (List.length ops) 6) as [E|E]; [| lia].
        exfalso. apply Hstrict.
        apply (NoDup_length_incl Hnd); [cbn; lia | exact Hincl]. }
    destruct Hlen as [H0 H6].
    apply Nat.ltb_lt in H0, H6. rewrite H0, H6. cbn [andb app].
    eexists. split; [reflexivity |]. intros ev. apply operationStage_passes.
  - intros Hall st Hin.
    pose proof (NoDup_incl_length NoDup_supportedTypes Hall) as Hle. cbn in Hle.
    assert (H6 : (List.length ops <? 6)%nat = false) by (apply Nat.ltb_ge; lia).
    rewrite H6, andb_false_r in Hin. cbn [app] in Hin.
    destruct (negb (fields ==? "*") && includes ops "update"); [| contradiction].
    destruct Hin as [<- | []]. intros [l Hl]. symmetry in Hl.
    exact (operationStage_not_fieldStage _ _ Hl).
Qed.

Lemma operation_stage_iff_strict_subset_witness :
  (exists rest,
     buildPipeline "*" ["insert"; "update"] = operationStage ["insert"; "update"] :: rest) /\
  (forall st, In st (buildPipeline "status" supportedTypes) -> ~ isOperationStage st).
Proof.
  split.
  - destruct (proj1 (operation_stage_iff_strict_subset "*" ["insert"; "update"]))
      as (rest & H & _).
    + repeat (constructor; [cbn; intros H;
        repeat (destruct H as [H | H]; [discriminate H |]); exact H |]).
      constructor.
    + intros x Hx. cbn in Hx. cbn. destruct Hx as [<- | [<- | []]]; tauto.
    + discriminate.
    + intros H. specialize (H "drop"). cbn in H.
      assert (Hd : "delete" = "drop" \/ "drop" = "drop" \/ "insert" = "drop" \/
                   "rename" = "drop" \/ "replace" = "drop" \/ "update" = "drop" \/ False)
        by (right; left; reflexivity).
      destruct (H Hd) as [E | [E | []]]; discriminate E.
    + exists rest. exact H.
  - apply (proj2 (operation_stage_iff_strict_subset "status" supportedTypes)).
    intros x Hx. exact Hx.
Defined.

(** *** The field stage *)

Lemma split_single (sep : ascii) (s : string) :
  JsString.mem sep s = false -> JsString.split sep s = [s].
Proof.
  induction s as [|c r IH]; cbn; [reflexivity |].
  rewrite Ascii.eqb_sym. intros H. apply orb_false_elim in H. destruct H as [Hc Hr].
  rewrite Hc, (IH Hr). reflexivity.
Qed.

Lemma split_cons (sep : ascii) (a b : string) :
  JsString.mem sep a = false ->
  JsString.split sep (a ++ String sep b) = a :: JsString.split sep b.
Proof.
  induction a as [|c r IH]; cbn.
  - intros _. rewrite Ascii.eqb_refl. reflexivity.
  - rewrite Ascii.eqb_sym. intros H. apply orb_false_elim in H. destruct H as [Hc Hr].
    rewrite Hc, (IH Hr). reflexivity.
Qed.

Lemma split_fieldPath (f : string) :
  JsString.split "." (fieldPath f) =
  "updateDescription" :: "updatedFields" :: JsString.split "." f.
Proof.
  unfold fieldPath.
  change ("updateDescription.updatedFields." ++ f)
    with ("updateDescription" ++ String "." ("updatedFields" ++ String "." f)).
  rewrite split_cons by reflexivity. rewrite split_cons by reflexivity. reflexivity.
Qed.

(** Below [updateDescription.updatedFields] a path is followed in the
    changed-fields map, when the event has one. *)
Lemma resolve_updatedFields (comps : list string) (ev : RawChangeEvent) :
  Server.resolve ("updateDescription" :: "updatedFields" :: comps) (Server.eventDoc ev) =
  match updateDescription ev with
  | Some {| updatedFields := Some changed |} => Server.resolve comps (JObj changed)
  | _ => []
  end.
Proof.
  unfold Server.eventDoc.
  destruct (updateDescription ev) as [[[changed|] removed]|]; cbn.
  - reflexivity.
  - destruct removed; reflexivity.
  - destruct (ns ev), (documentKey ev), (fullDocument ev), (to ev); reflexivity.
Qed.

Lemma pathExists_fieldPath (f : string) (ev : RawChangeEvent) :
  Server.pathExists (fieldPath f) (Server.eventDoc ev) =
  match updateDescription ev with
  | Some {| updatedFields := Some changed |} =>
      match Server.resolve (JsString.split "." f) (JObj changed) with
      | [] => false
      | _ => true
      end
  | _ => false
  end.
Proof.
  unfold Server.pathExists, Server.at_path.
  rewrite split_fieldPath, resolve_updatedFields.
  destruct (updateDescription ev) as [[[changed|] removed]|]; reflexivity.
Qed.

Lemma pathExists_updatedFields (ev : RawChangeEvent) :
  Server.pathExists "updateDescription.updatedFields" (Server.eventDoc ev) =
  match updateDescription ev with
  | Some {| updatedFields := Some _ |} => true
  | _ => false
  end.
Proof.
  unfold Server.pathExists, Server.at_path.
  change (JsString.split "." "updateDescription.updatedFields")
    with ["updateDescription"; "updatedFields"].
  rewrite resolve_updatedFields.
  destruct (updateDescription ev) as [[[changed|] removed]|]; reflexivity.
Qed.

(** For a name without a dot the path exists exactly when the name is a key
    of the changed-fields map. *)
Lemma pathExists_plain_field (f : string) (ev : RawChangeEvent) :
  JsString.mem "." f = false ->
  Server.pathExists (fieldPath f) (Server.eventDoc ev) = hasOwnProperty (changedFields ev) f.
Proof.
  intros Hf. rewrite pathExists_fieldPath, (split_single _ _ Hf).
  unfold changedFields, hasOwnProperty.
  destruct (updateDescription ev) as [[[changed|] removed]|]; cbn; try reflexivity.
  destruct (lookup f changed); reflexivity.
Qed.

Lemma existsb_over_map {A B : Type} (f : A -> B) (p : B -> bool) (l : list A) :
  existsb p (map f l) = existsb (fun x => p (f x)) l.
Proof. induction l as [|x r IH]; cbn; [reflexivity | rewrite IH; reflexivity]. Qed.

Lemma existsb_pointwise {A : Type} (p q : A -> bool) (l : list A) :
  (forall x, p x = q x) -> existsb p l = existsb q l.
Proof.
  intros H. induction l as [|x r IH]; cbn; [reflexivity | rewrite H, IH; reflexivity].
Qed.

Lemma fieldStage_passes (l : list string) (ev : RawChangeEvent) :
  Server.passes (fieldStage l) ev =
  negb ("update" ==? operationType ev) ||
  (("update" ==? operationType ev) &&
   Server.pathExists "updateDescription.updatedFields" (Server.eventDoc ev) &&
   existsb (fun f => Server.pathExists (fieldPath f) (Server.eventDoc ev)) l).
Proof.
  unfold Server.passes, fieldStage.
  cbn [Server.evalQuery Server.evalCond existsb forallb].
  rewrite !isAt_operationType, orb_false_r, andb_true_r.
  rewrite existsb_over_map. cbn [Server.evalQuery Server.evalCond].
  f_equal. rewrite andb_assoc. f_equal.
  - destruct (Server.pathExists _ _); reflexivity.
  - apply existsb_pointwise. intros f. unfold fieldPath.
    destruct (Server.pathExists _ _); reflexivity.
Qed.

Lemma fieldStage_in_pipeline (fields : string) (ops : list string) (st : Stage) :
  In st (buildPipeline fields ops) -> isFieldStage st ->
  st = fieldStage (fieldList fields) /\ fields <> "*" /\ In "update" ops.
Proof.
  rewrite buildPipeline_cases, in_app_iff. intros [H | H] [l Hl].
  - destruct ((0 <? List.length ops)%nat && (List.length ops <? 6)%nat); [| contradiction].
    destruct H as [<- | []]. exfalso. exact (operationStage_not_fieldStage _ _ Hl).
  - destruct (negb (fields ==? "*")) eqn:E1; [| contradiction].
    destruct (includes ops "update") eqn:E2; [| contradiction].
    destruct H as [<- | []]. split; [reflexivity |]. split.
    + apply negb_true_iff, String.eqb_neq in E1. exact E1.
    + apply includes_In. exact E2.
Qed.

Lemma fieldStage_appended (fields : string) (ops : list string) :
  fields <> "*" -> In "update" ops ->
  In (fieldStage (fieldList fields)) (buildPipeline fields ops).
Proof.
  intros Hf Hu. rewrite buildPipeline_cases, in_app_iff. right.
  apply String.eqb_neq in Hf. apply includes_In in Hu. rewrite Hf, Hu. left. reflexivity.
Qed.

Lemma fieldStage_update (l : list string) (ev : RawChangeEvent) :
  operationType ev = "update" ->
  (Server.passes (fieldStage l) ev = true <->
   exists f, In f l /\ Server.pathExists (fieldPath f) (Server.eventDoc ev) = true).
Proof.
  intros Hop. rewrite fieldStage_passes, Hop. cbn [String.eqb Ascii.eqb Bool.eqb negb orb andb].
  rewrite andb_true_iff, existsb_exists. split.
  - intros [_ H]. exact H.
  - intros (f & Hin & Hf). split; [| exists f; split; assumption].
    rewrite pathExists_updatedFields. rewrite pathExists_fieldPath in Hf.
    destruct (updateDescription ev) as [[[changed|] removed]|];
      [reflexivity | discriminate Hf | discriminate Hf].
Qed.

(** C2, as the code has it. The pipeline contains a field-restricting
    stage exactly when [fields] is not ["*"] and the operation types include
    ["update"], and that stage is the one built from the monitored names.
    The stage lets every event through that is not an update, and an update
    exactly when, for one of the monitored names, the path
    [updateDescription.updatedFields.<name>] exists in the event; for a name
    without a dot that is the case exactly when the name is a key of the
    changed-fields map. *)
Theorem field_stage_by_path (fields : string) (ops : list string) :
  ((exists st, In st (buildPipeline fields ops) /\ isFieldStage st) <->
     fields <> "*" /\ In "update" ops) /\
  (forall st, In st (buildPipeline fields ops) -> isFieldStage st ->
     st = fieldStage (fieldList fields)) /\
  (forall ev, operationType ev <> "update" ->
     Server.passes (fieldStage (fieldList fields)) ev = true) /\
  (forall ev, operationType ev = "update" ->
     (Server.passes (fieldStage (fieldList fields)) ev = true <->
      exists f, In f (fieldList fields) /\
                Server.pathExists (fieldPath f) (Server.eventDoc ev) = true)) /\
  (forall ev f, JsString.mem "." f = false ->
     (Server.pathExists (fieldPath f) (Server.eventDoc ev) = true <->
      hasOwnProperty (changedFields ev) f = true)).
Proof.
  split; [| split; [| split; [| split]]].
  - split.
    + intros (st & Hin & Hst).
      destruct (fieldStage_in_pipeline _ _ _ Hin Hst) as (_ & H1 & H2). split; assumption.
    + intros [Hf Hu]. exists (fieldStage (fieldList fields)). split.
      * apply fieldStage_appended; assumption.
      * exists (fieldList fields). reflexivity.
  - intros st Hin Hst. apply (fieldStage_in_pipeline _ _ _ Hin Hst).
  - intros ev Hop. rewrite fieldStage_passes.
    assert (E : ("update" ==? operationType ev) = false).
    { apply String.eqb_neq. intros H. apply Hop. symmetry. exact H. }
    rewrite E. reflexivity.
  - intros ev Hop. apply fieldStage_update. exact Hop.
  - intros ev f Hf. rewrite (pathExists_plain_field _ _ Hf). reflexivity.
Qed.

Lemma field_stage_by_path_witness :
  In (fieldStage ["status"; "priority"]) (buildPipeline "status, priority" ["update"]) /\
  Server.passes (fieldStage ["status"; "priority"])
    (sampleUpdate [("priority", JNum "2")]) = true.
Proof.
  destruct (field_stage_by_path "status, priority" ["update"]) as (H1 & H2 & _ & H4 & H5).
  change ["status"; "priority"] with (fieldList "status, priority").
  split.
  - destruct (proj2 H1) as (st & Hin & Hst).
    + split; [discriminate | left; reflexivity].
    + rewrite <- (H2 st Hin Hst). exact Hin.
  - apply (H4 (sampleUpdate [("priority", JNum "2")]) eq_refl).
    exists "priority". split; [right; left; reflexivity |].
    apply (H5 _ "priority" eq_refl). reflexivity.
Defined.

(** C2 as stated fails for a monitored name with a dot: an update of a
    nested field reports the key [address.city] among the changed fields,
    but the stage follows the path into a document [address], which the
    changed-fields map does not have. *)
Lemma field_stage_misses_dotted_name :
  In "address.city" (fieldList "address.city") /\
  hasOwnProperty (changedFields sampleNested) "address.city" = true /\
  buildPipeline "address.city" ["update"] =
    [operationStage ["update"]; fieldStage (fieldList "address.city")] /\
  Server.passes (fieldStage (fieldList "address.city")) sampleNested = false /\
  ~ (Server.passes (fieldStage (fieldList "address.city")) sampleNested = true <->
     exists f, In f (fieldList "address.city") /\
               hasOwnProperty (changedFields sampleNested) f = true).
Proof.
  split; [left; reflexivity |].
  split; [reflexivity |].
  split; [reflexivity |].
  split; [reflexivity |].
  intros [_ H].
  assert (E : Server.passes (fieldStage (fieldList "address.city")) sampleNested = false)
    by reflexivity.
  rewrite H in E; [discriminate E |].
  exists "address.city". split; [left; reflexivity | reflexivity].
Qed.


(** ** Start-up *)

Lemma nodeApiErrorFrom_name (n8n : Library) (e : JsError) (message : string) :
  errName (nodeApiErrorFrom n8n e message) = "NodeApiError".
Proof.
  unfold nodeApiErrorFrom.
  destruct (errName e ==? "NodeApiError") eqn:E; [apply String.eqb_eq, E | reflexivity].
Qed.

(** The outer [catch] of the validation never wraps: whatever the two
    checks raise is a NodeApiError already. *)
Lemma validate_inner (n8n : Library) (mongo : Deployment)
    (database collectionName : string) :
  validate n8n mongo database collectionName =
  bind (checkDatabase n8n mongo database)
       (fun _ => checkCollection n8n mongo database collectionName).
Proof.
  unfold validate, checkDatabase, checkCollection.
  destruct (ping mongo database) as [[]|e2]; cbn [tryCatch bind].
  - destruct (listCollections mongo database collectionName) as [[|c l]|e3];
      cbn [tryCatch bind List.length Nat.eqb]; try reflexivity;
      destruct (notAuthorized _); cbn [tryCatch];
      rewrite ?nodeApiErrorFrom_name; reflexivity.
  - destruct (notAuthorized e2); reflexivity.
Qed.

(** C6. When the ping succeeds and the lookup of the collection returns
    no match, [trigger] raises and opens no change stream; but the error it
    raises for the missing collection is thrown inside the [try] of the
    lookup and so passes through its [catch]: when the message of that
    error contains [not authorized], as it does for a collection of that
    name, what is raised is the permission error for the listing, which
    names the database only. For every other name the error for the missing
    collection is raised as it is. *)
Theorem missing_collection_error_recaught (n8n : Library) (mongo : Deployment)
    (database collectionName uri fields : string) (ops : list string) :
  connect mongo uri = Ok tt ->
  ping mongo database = Ok tt ->
  listCollections mongo database collectionName = Ok [] ->
  trigger n8n mongo database collectionName (Some uri) fields ops =
    Throw (if notAuthorized (nodeApiError n8n (msgNotFound database collectionName))
           then nodeApiError n8n (msgNotAuthorizedList database)
           else nodeApiError n8n (msgNotFound database collectionName)).
Proof.
  intros Hc Hp Hl. unfold trigger. rewrite Hc, validate_inner.
  unfold checkDatabase, checkCollection. rewrite Hp, Hl.
  cbn [tryCatch bind List.length Nat.eqb].
  destruct (notAuthorized (nodeApiError n8n (msgNotFound database collectionName)));
    reflexivity.
Qed.

Lemma missing_collection_error_recaught_witness :
  trigger verbatim (deploymentWith ["users"]) "shop" "not authorized"
          (Some "mongodb://localhost") "*" ["update"] =
    Throw (nodeApiError verbatim (msgNotAuthorizedList "shop")) /\
  JsString.includes (quoted "not authorized") (msgNotAuthorizedList "shop") = false.
Proof.
  split; [| reflexivity].
  apply (missing_collection_error_recaught verbatim (deploymentWith ["users"])
           "shop" "not authorized" "mongodb://localhost" "*" ["update"]); reflexivity.
Defined.

(** C9 as stated fails: with no operation type selected the node opens the
    change stream. *)
Lemma empty_operation_types_start_watch :
  trigger verbatim (deploymentWith ["orders"]) "shop" "orders"
          (Some "mongodb://localhost") "status" [] =
    Ok {| watchedDatabase := "shop"; watchedCollection := "orders"; pipeline := [] |}.
Proof. reflexivity. Qed.

(** C9, as the code has it. With no operation type selected nothing is
    raised for the configuration: when the connection and the validation
    succeed, [trigger] opens the change stream with an empty pipeline,
    whatever the monitored fields are. *)
Theorem empty_operation_types_unfiltered (n8n : Library) (mongo : Deployment)
    (database collectionName uri fields : string) :
  connect mongo uri = Ok tt ->
  validate n8n mongo database collectionName = Ok tt ->
  buildPipeline fields [] = [] /\
  trigger n8n mongo database collectionName (Some uri) fields [] =
    Ok {| watchedDatabase := database; watchedCollection := collectionName;
          pipeline := [] |}.
Proof.
  intros Hc Hv.
  assert (Hp : buildPipeline fields [] = []).
  { unfold buildPipeline. cbn. rewrite andb_false_r. reflexivity. }
  split; [exact Hp |].
  unfold trigger. rewrite Hc, Hv, Hp. reflexivity.
Qed.

Lemma empty_operation_types_unfiltered_witness :
  trigger verbatim (deploymentWith ["orders"]) "shop" "orders"
          (Some "mongodb://localhost") "*" [] =
    Ok {| watchedDatabase := "shop"; watchedCollection := "orders"; pipeline := [] |}.
Proof.
  apply (empty_operation_types_unfiltered verbatim (deploymentWith ["orders"])
           "shop" "orders" "mongodb://localhost" "*"); reflexivity.
Defined.

(** ** The listener and failures *)

(** C8 as stated fails: on an update that changes a field named
    [hasOwnProperty] the listener, under a filter, does not drop the event
    and go on; the TypeError of the filter test leaves the listener, and the
    same holds for the TypeError of normalising an insert whose [_id] is a
    document with a field named [toString]. *)
Lemma listener_failure_escapes :
  onChange 0 "d" "c" [statusIs "done"] sampleShadowed = Throw hasOwnPropertyError /\
  onChange 0 "d" "c" [] sampleUnprintable = Throw toStringError /\
  ~ (exists outs, onChange 0 "d" "c" [statusIs "done"] sampleShadowed = Ok outs).
Proof.
  split; [reflexivity |]. split; [reflexivity |].
  intros [outs H]. discriminate H.
Qed.

(** C8, as the code has it. The listener handles no failure: an
    exception raised while the event is normalised leaves the listener, and
    so does an exception raised while the filters are tested on an update;
    in either case nothing is emitted for the event. *)
Theorem listener_failure_propagates (now : Z) (database collectionName : string)
    (filters : list Filter) (ev : RawChangeEvent) (e : JsError) :
  (formatChangeOutput now database collectionName ev = Throw e ->
     onChange now database collectionName filters ev = Throw e) /\
  (forall out, formatChangeOutput now database collectionName ev = Ok out ->
     operationType ev = "update" -> filters <> [] ->
     every (conditionMet (changedFields ev)) filters = Throw e ->
     onChange now database collectionName filters ev = Throw e).
Proof.
  split; [apply onChange_format_fails |].
  intros out Hout Hop Hne He. unfold onChange. rewrite Hout, Hop. cbn [bind].
  fold (changedFields ev). rewrite String.eqb_refl, andb_true_r, He.
  destruct filters as [|f fs]; [contradiction | reflexivity].
Qed.

Lemma listener_failure_propagates_witness :
  onChange 0 "d" "c" [statusIs "done"] sampleUnprintable = Throw toStringError /\
  onChange 0 "d" "c" [statusIs "done"] sampleShadowed = Throw hasOwnPropertyError.
Proof.
  split.
  - apply (proj1 (listener_failure_propagates 0 "d" "c" [statusIs "done"]
                    sampleUnprintable toStringError)).
    reflexivity.
  - eapply (proj2 (listener_failure_propagates 0 "d" "c" [statusIs "done"]
                     sampleShadowed hasOwnPropertyError)).
    + reflexivity.
    + reflexivity.
    + discriminate.
    + reflexivity.
Defined.

(** ** Shutdown *)

(** C7 as stated fails: when closing the change stream fails, the client
    is not closed, and the call ends in that failure. *)
Lemma client_not_closed_after_stream_failure :
  closeFunction brokenStream openHandles =
    ({| streamOpen := true; clientOpen := true; calls := [CloseChangeStream] |},
     Throw streamError) /\
  ~ In CloseClient (calls (fst (closeFunction brokenStream openHandles))).
Proof.
  split; [reflexivity |].
  cbn. intros [H | []]. discriminate H.
Qed.

(** C7, as the code has it. [closeFunction] closes the change stream
    first and the client after it; the client's close is attempted exactly
    when the close of the change stream did not fail; a failure of either
    close is the outcome of the call, and the call raises nothing exactly
    when both closes resolve. A call that raised nothing has left both
    handles closed, and calling [closeFunction] again then raises nothing
    either, as the driver's close of a closed handle resolves. *)
Theorem closeFunction_order (drv : Closers) (h : Handles) :
  (exists l, calls (fst (closeFunction drv h)) = (calls h ++ CloseChangeStream :: l)%list /\
             (l = [] \/ l = [CloseClient]) /\
             (l = [CloseClient] <-> exists u, changeStreamClose drv (streamOpen h) = Ok u)) /\
  (forall e, changeStreamClose drv (streamOpen h) = Throw e ->
             snd (closeFunction drv h) = Throw e) /\
  (forall e, changeStreamClose drv (streamOpen h) = Ok tt ->
             clientClose drv (clientOpen h) = Throw e ->
             snd (closeFunction drv h) = Throw e) /\
  (snd (closeFunction drv h) = Ok tt <->
     changeStreamClose drv (streamOpen h) = Ok tt /\
     clientClose drv (clientOpen h) = Ok tt) /\
  (snd (closeFunction drv h) = Ok tt ->
     streamOpen (fst (closeFunction drv h)) = false /\
     clientOpen (fst (closeFunction drv h)) = false /\
     (changeStreamClose drv false = Ok tt -> clientClose drv false = Ok tt ->
        snd (closeFunction drv (fst (closeFunction drv h))) = Ok tt)).
Proof.
  unfold closeFunction. split; [| split; [| split; [| split]]].
  - destruct (changeStreamClose drv (streamOpen h)) as [u|e].
    + exists [CloseClient]. split.
      * destruct (clientClose drv (clientOpen h)); cbn; rewrite <- app_assoc; reflexivity.
      * split; [right; reflexivity |]. split; [intros _; exists u; reflexivity | reflexivity].
    + exists []. split; [reflexivity |]. split; [left; reflexivity |].
      split; [discriminate | intros [u H]; discriminate H].
  - intros e He. rewrite He. reflexivity.
  - intros e Hs Hc. rewrite Hs, Hc. reflexivity.
  - destruct (changeStreamClose drv (streamOpen h)) as [[]|e1].
    + destruct (clientClose drv (clientOpen h)) as [[]|e2]; cbn [snd].
      * split; [intros _; split; reflexivity | reflexivity].
      * split; [discriminate | intros [_ H]; discriminate H].
    + cbn [snd]. split; [discriminate | intros [H _]; discriminate H].
  - destruct (changeStreamClose drv (streamOpen h)) as [[]|e1]; [| discriminate].
    destruct (clientClose drv (clientOpen h)) as [[]|e2]; [| discriminate].
    intros _. cbn [fst snd streamOpen clientOpen]. split; [reflexivity |].
    split; [reflexivity |]. intros Hs Hc. rewrite Hs, Hc. reflexivity.
Qed.

Lemma closeFunction_order_witness :
  snd (closeFunction quietClosers openHandles) = Ok tt /\
  snd (closeFunction quietClosers (fst (closeFunction quietClosers openHandles))) = Ok tt /\
  snd (closeFunction brokenStream openHandles) = Throw streamError /\
  snd (closeFunction brokenClient openHandles) = Throw clientError.
Proof.
  destruct (closeFunction_order quietClosers openHandles) as (_ & _ & _ & Hiff & Hagain).
  assert (H1 : snd (closeFunction quietClosers openHandles) = Ok tt).
  { apply (proj2 Hiff). split; reflexivity. }
  split; [exact H1 |]. split.
  - destruct (Hagain H1) as (_ & _ & H2). apply H2; reflexivity.
  - split.
    + apply (proj1 (proj2 (closeFunction_order brokenStream openHandles))). reflexivity.
    + apply (proj1 (proj2 (proj2 (closeFunction_order brokenClient openHandles))));
        reflexivity.
Defined.

(** * Further properties of the code *)

(** ** Start-up: outcomes of [trigger] *)

Lemma prefix_app (s b : string) : String.prefix s (s ++ b) = true.
Proof.
  induction s as [|c r IH]; cbn; [destruct b; reflexivity |].
  destruct (ascii_dec c c) as [_|N]; [exact IH | contradiction].
Qed.

Lemma includes_prefix (sub s : string) :
  String.prefix sub s = true -> JsString.includes sub s = true.
Proof. destruct s; cbn; intros ->; reflexivity. Qed.

Lemma includes_middle (a s b : string) : JsString.includes s (a ++ s ++ b) = true.
Proof.
  induction a as [|c r IH]; cbn [append].
  - apply includes_prefix, prefix_app.
  - cbn [JsString.includes]. rewrite IH. apply orb_true_r.
Qed.


Lemma includes_app_r (s a t : string) :
  JsString.includes s t = true -> JsString.includes s (a ++ t) = true.
Proof.
  intros H. induction a as [|c r IH]; cbn [append]; [exact H |].
  cbn [JsString.includes]. rewrite IH. apply orb_true_r.
Qed.

Lemma includes_app_l (s b : string) : JsString.includes s (s ++ b) = true.
Proof. apply includes_prefix, prefix_app. Qed.

Lemma prefix_refl (s : string) : String.prefix s s = true.
Proof.
  induction s as [|c r IH]; cbn; [reflexivity |].
  destruct (ascii_dec c c) as [_|N]; [exact IH | contradiction].
Qed.

Lemma includes_refl (s : string) : JsString.includes s s = true.
Proof. apply includes_prefix, prefix_refl. Qed.

(** X1. [trigger] opens a change stream exactly when credentials are
    there, the connection and the ping succeed and the lookup of the
    collection returns at least one match; the stream is then opened on the
    given database and collection with the pipeline of [buildPipeline]. *)
Theorem trigger_succeeds_iff (n8n : Library) (mongo : Deployment)
    (database collectionName : string)
    (credentials : option string) (fields : string) (ops : list string) :
  ((exists sub, trigger n8n mongo database collectionName credentials fields ops = Ok sub) <->
   (exists uri, credentials = Some uri /\ connect mongo uri = Ok tt /\
                ping mongo database = Ok tt /\
                exists c l, listCollections mongo database collectionName = Ok (c :: l))) /\
  (forall sub, trigger n8n mongo database collectionName credentials fields ops = Ok sub ->
     sub = {| watchedDatabase := database; watchedCollection := collectionName;
              pipeline := buildPipeline fields ops |}).
Proof.
  unfold trigger. rewrite validate_inner. unfold checkDatabase, checkCollection.
  destruct credentials as [uri|].
  2:{ split; [split |]; [intros [sub H]; discriminate H
                        | intros (uri & H & _); discriminate H
                        | intros sub H; discriminate H]. }
  destruct (connect mongo uri) as [[]|e1] eqn:E1; cbn [tryCatch bind].
  2:{ split; [split |]; [intros [sub H]; discriminate H
                        | intros (u & [= <-] & H & _); congruence
                        | intros sub H; discriminate H]. }
  destruct (ping mongo database) as [[]|e2] eqn:E2; cbn [tryCatch bind].
  2:{ destruct (notAuthorized e2); cbn;
      (split; [split |]; [intros [sub H]; discriminate H
                         | intros (u & _ & _ & H & _); discriminate H
                         | intros sub H; discriminate H]). }
  destruct (listCollections mongo database collectionName) as [[|c l]|e3] eqn:E3;
    cbn [tryCatch bind List.length Nat.eqb].
  - destruct (notAuthorized _); cbn [bind];
      (split; [split |]; [intros [sub H]; discriminate H
                         | intros (u & _ & _ & _ & c & l & H); discriminate H
                         | intros sub H; discriminate H]).
  - split; [split |].
    + intros _. exists uri. do 3 (split; [first [reflexivity | assumption] |]).
      exists c, l. first [reflexivity | assumption].
    + intros _. eexists. reflexivity.
    + intros sub [= <-]. reflexivity.
  - destruct (notAuthorized e3); cbn [bind];
      (split; [split |]; [intros [sub H]; discriminate H
                         | intros (u & _ & _ & _ & c & l & H); discriminate H
                         | intros sub H; discriminate H]).
Qed.

Lemma trigger_succeeds_iff_witness :
  exists sub,
    trigger verbatim (deploymentWith ["orders"]) "shop" "orders" (Some "mongodb://localhost")
            "status" ["update"] = Ok sub.
Proof.
  apply (proj2 (proj1 (trigger_succeeds_iff verbatim (deploymentWith ["orders"])
                         "shop" "orders" (Some "mongodb://localhost") "status" ["update"]))).
  exists "mongodb://localhost". do 3 (split; [reflexivity |]).
  exists "orders", []. reflexivity.
Defined.

(** X3. Failures are reported in the order of the calls. A rejected
    connection is handed to NodeApiError with the connection text, whatever
    the ping and the lookup would answer. A rejected ping, once connected,
    raises a NodeApiError made from the permission text when the driver's
    error says [not authorized] or has the code name [Unauthorized], and
    from the access text otherwise; both texts name the database, the access
    text carries the driver's own message, and the collection is not looked
    up. The message the error ends up with is what NodeApiError makes of the
    text. *)
Theorem trigger_connect_and_ping_failures (n8n : Library) (mongo : Deployment)
    (database collectionName uri fields : string) (ops : list string) (e : JsError) :
  (connect mongo uri = Throw e ->
     trigger n8n mongo database collectionName (Some uri) fields ops =
       Throw (nodeApiErrorFrom n8n e msgConnect)) /\
  (connect mongo uri = Ok tt -> ping mongo database = Throw e ->
     trigger n8n mongo database collectionName (Some uri) fields ops =
       Throw (nodeApiError n8n (if notAuthorized e then msgNotAuthorizedDatabase database
                                else msgNoAccess database e))) /\
  JsString.includes (quoted database) (msgNotAuthorizedDatabase database) = true /\
  JsString.includes (quoted database) (msgNoAccess database e) = true /\
  JsString.includes (messageText e) (msgNoAccess database e) = true /\
  (forall text, errMessage (nodeApiError n8n text) = Some (n8n None text)).
Proof.
  split; [| split; [| split; [| split; [| split]]]].
  - intros Hc. unfold trigger. rewrite Hc. reflexivity.
  - intros Hc Hp. unfold trigger. rewrite Hc, validate_inner. unfold checkDatabase.
    rewrite Hp. cbn [tryCatch bind]. destruct (notAuthorized e); reflexivity.
  - unfold msgNotAuthorizedDatabase. apply includes_middle.
  - unfold msgNoAccess. apply includes_middle.
  - unfold msgNoAccess. do 3 apply includes_app_r. apply includes_refl.
  - reflexivity.
Qed.

Lemma trigger_connect_and_ping_failures_witness :
  trigger verbatim (deploymentDown (driverError "getaddrinfo ENOTFOUND" None))
          "shop" "orders" (Some "mongodb://nowhere") "*" ["update"] =
    Throw (nodeApiErrorFrom verbatim (driverError "getaddrinfo ENOTFOUND" None) msgConnect) /\
  trigger verbatim (deploymentPingFails (driverError "command ping requires authentication"
                                                     (Some "Unauthorized")))
          "shop" "orders" (Some "mongodb://localhost") "*" ["update"] =
    Throw (nodeApiError verbatim (msgNotAuthorizedDatabase "shop")).
Proof.
  split.
  - apply (proj1 (trigger_connect_and_ping_failures verbatim
                    (deploymentDown (driverError "getaddrinfo ENOTFOUND" None))
                    "shop" "orders" "mongodb://nowhere" "*" ["update"]
                    (driverError "getaddrinfo ENOTFOUND" None))).
    reflexivity.
  - apply (proj1 (proj2 (trigger_connect_and_ping_failures verbatim
                    (deploymentPingFails (driverError "command ping requires authentication"
                                                      (Some "Unauthorized")))
                    "shop" "orders" "mongodb://localhost" "*" ["update"]
                    (driverError "command ping requires authentication"
                                 (Some "Unauthorized"))))); reflexivity.
Defined.

(** X4. When the lookup of the collection itself is rejected by the
    driver, [trigger] raises the permission error for the listing when the
    error says [not authorized] or has the code name [Unauthorized];
    otherwise it raises the lookup failure, whose text names the collection
    and which keeps the driver's error as its cause. *)
Theorem trigger_lookup_failure (n8n : Library) (mongo : Deployment)
    (database collectionName uri fields : string) (ops : list string) (e : JsError) :
  connect mongo uri = Ok tt ->
  ping mongo database = Ok tt ->
  listCollections mongo database collectionName = Throw e ->
  trigger n8n mongo database collectionName (Some uri) fields ops =
    Throw (if notAuthorized e then nodeApiError n8n (msgNotAuthorizedList database)
           else nodeApiErrorFrom n8n e (msgVerifyFailed collectionName)) /\
  (errName e <> "NodeApiError" ->
     errCause (nodeApiErrorFrom n8n e (msgVerifyFailed collectionName)) = Some e) /\
  (nodeApiErrorFrom n8n e (msgVerifyFailed collectionName) = e \/
   errCause (nodeApiErrorFrom n8n e (msgVerifyFailed collectionName)) = Some e) /\
  JsString.includes (quoted collectionName) (msgVerifyFailed collectionName) = true /\
  JsString.includes (quoted database) (msgNotAuthorizedList database) = true.
Proof.
  intros Hc Hp Hl. split; [| split; [| split; [| split]]].
  - unfold trigger. rewrite Hc, validate_inner. unfold checkDatabase, checkCollection.
    rewrite Hp, Hl. cbn [tryCatch bind]. destruct (notAuthorized e); reflexivity.
  - intros Hn. apply String.eqb_neq in Hn. unfold nodeApiErrorFrom. rewrite Hn. reflexivity.
  - unfold nodeApiErrorFrom.
    destruct (errName e ==? "NodeApiError"); [left | right]; reflexivity.
  - unfold msgVerifyFailed. apply includes_middle.
  - unfold msgNotAuthorizedList. apply includes_middle.
Qed.

Lemma trigger_lookup_failure_witness :
  trigger verbatim (deploymentListFails (driverError "socket closed" None))
          "shop" "orders" (Some "mongodb://localhost") "*" ["update"] =
    Throw (nodeApiErrorFrom verbatim (driverError "socket closed" None)
                            (msgVerifyFailed "orders")) /\
  errCause (nodeApiErrorFrom verbatim (driverError "socket closed" None)
                             (msgVerifyFailed "orders")) =
    Some (driverError "socket closed" None).
Proof.
  destruct (trigger_lookup_failure verbatim
              (deploymentListFails (driverError "socket closed" None))
              "shop" "orders" "mongodb://localhost" "*" ["update"]
              (driverError "socket closed" None) eq_refl eq_refl eq_refl)
    as (H1 & H2 & _).
  split; [exact H1 |]. apply H2. discriminate.
Defined.

(** ** The pipeline as a whole *)

Lemma operationStage_passes_bool (ops : list string) (ev : RawChangeEvent) :
  Server.passes (operationStage ops) ev = includes ops (operationType ev).
Proof.
  apply eq_true_iff_eq. rewrite operationStage_passes, includes_In. reflexivity.
Qed.

Lemma fieldStage_passes_bool (fields : string) (ev : RawChangeEvent) :
  Server.passes (fieldStage (fieldList fields)) ev =
  negb (operationType ev ==? "update") || monitoredChange fields ev.
Proof.
  destruct (operationType ev ==? "update") eqn:E.
  - apply String.eqb_eq in E. cbn [negb orb]. apply eq_true_iff_eq.
    rewrite (fieldStage_update _ _ E). unfold monitoredChange.
    rewrite existsb_exists. reflexivity.
  - cbn [negb orb]. rewrite fieldStage_passes, String.eqb_sym, E. reflexivity.
Qed.

Lemma passesPipeline_buildPipeline (fields : string) (ops : list string)
    (ev : RawChangeEvent) :
  passesPipeline (buildPipeline fields ops) ev =
  (if (0 <? List.length ops)%nat && (List.length ops <? 6)%nat
   then includes ops (operationType ev) else true) &&
  (if negb (fields ==? "*") && includes ops "update"
   then negb (operationType ev ==? "update") || monitoredChange fields ev else true).
Proof.
  unfold passesPipeline. rewrite buildPipeline_cases, forallb_app.
  destruct ((0 <? List.length ops)%nat && (List.length ops <? 6)%nat);
    destruct (negb (fields ==? "*") && includes ops "update"); cbn [forallb];
    rewrite ?operationStage_passes_bool, ?fieldStage_passes_bool, ?andb_true_r;
    reflexivity.
Qed.

(** X5. With one to five operation types selected, an event is delivered
    only if its operation type is one of them; an event of a selected type
    other than update is always delivered, whatever the monitored fields;
    and an update, when selected, is delivered exactly when [fields] is
    ["*"] or one of the monitored paths exists in the event. *)
Theorem pipeline_delivery (fields : string) (ops : list string) (ev : RawChangeEvent) :
  (0 < List.length ops < 6)%nat ->
  (passesPipeline (buildPipeline fields ops) ev = true -> In (operationType ev) ops) /\
  (In (operationType ev) ops -> operationType ev <> "update" ->
     passesPipeline (buildPipeline fields ops) ev = true) /\
  (In (operationType ev) ops -> operationType ev = "update" ->
     (passesPipeline (buildPipeline fields ops) ev = true <->
      fields = "*" \/ monitoredChange fields ev = true)).
Proof.
  intros [H0 H6]. rewrite passesPipeline_buildPipeline.
  apply Nat.ltb_lt in H0, H6. rewrite H0, H6. cbn [andb].
  split; [| split].
  - intros H. apply andb_true_iff in H. apply includes_In, H.
  - intros Hin Hop. apply includes_In in Hin. rewrite Hin. cbn [andb].
    apply String.eqb_neq in Hop. rewrite Hop. cbn [negb orb].
    destruct (negb (fields ==? "*") && includes ops "update"); reflexivity.
  - intros Hin Hop. rewrite Hop in Hin. apply includes_In in Hin.
    rewrite Hop, Hin. cbn [String.eqb Ascii.eqb Bool.eqb negb orb andb].
    rewrite ?String.eqb_refl, ?andb_true_r. cbn [negb orb andb].
    destruct (fields ==? "*") eqn:E; cbn [negb].
    + apply String.eqb_eq in E. split; [intros _; left; exact E | reflexivity].
    + apply String.eqb_neq in E. split; [intros H; right; exact H |].
      intros [H | H]; [contradiction | exact H].
Qed.

Lemma pipeline_delivery_witness :
  passesPipeline (buildPipeline "status" ["update"; "delete"]) sampleDelete = true /\
  (passesPipeline (buildPipeline "status" ["update"; "delete"]) sampleInsert = true ->
   In "insert" ["update"; "delete"]).
Proof.
  assert (L : (0 < List.length ["update"; "delete"] < 6)%nat) by (cbn; lia).
  split.
  - apply (proj1 (proj2 (pipeline_delivery "status" ["update"; "delete"] sampleDelete L))).
    + right. left. reflexivity.
    + discriminate.
  - apply (proj1 (pipeline_delivery "status" ["update"; "delete"] sampleInsert L)).
Defined.

(** X6. The operation stage is added only for lists of one to five
    entries. With six or more entries, whichever they are, the operation
    type is not restricted: every event that is not an update is delivered,
    selected or not. *)
Theorem long_selection_unrestricted (fields : string) (ops : list string)
    (ev : RawChangeEvent) :
  (6 <= List.length ops)%nat ->
  operationType ev <> "update" ->
  passesPipeline (buildPipeline fields ops) ev = true /\
  forall st, In st (buildPipeline fields ops) -> ~ isOperationStage st.
Proof.
  intros Hlen Hop. split.
  - rewrite passesPipeline_buildPipeline.
    assert (H6 : (List.length ops <? 6)%nat = false) by (apply Nat.ltb_ge; lia).
    rewrite H6, andb_false_r. cbn [andb].
    apply String.eqb_neq in Hop. rewrite Hop. cbn [negb orb].
    destruct (negb (fields ==? "*") && includes ops "update"); reflexivity.
  - intros st Hin [l Hl]. rewrite buildPipeline_cases in Hin.
    assert (H6 : (List.length ops <? 6)%nat = false) by (apply Nat.ltb_ge; lia).
    rewrite H6, andb_false_r in Hin. cbn [app] in Hin.
    destruct (negb (fields ==? "*") && includes ops "update"); [| contradiction].
    destruct Hin as [<- | []]. symmetry in Hl.
    exact (operationStage_not_fieldStage _ _ Hl).
Qed.

Lemma long_selection_unrestricted_witness :
  passesPipeline
    (buildPipeline "*" ["insert"; "insert"; "insert"; "insert"; "insert"; "insert"])
    sampleDelete = true.
Proof.
  apply (long_selection_unrestricted "*"
           ["insert"; "insert"; "insert"; "insert"; "insert"; "insert"] sampleDelete).
  - cbn. lia.
  - discriminate.
Defined.

(** ** The monitored names *)

Lemma split_not_nil (sep : ascii) (s : string) : JsString.split sep s <> [].
Proof.
  induction s as [|c r IH]; cbn; [discriminate |].
  destruct (Ascii.eqb c sep); [discriminate |].
  destruct (JsString.split sep r); discriminate.
Qed.

Lemma split_pieces_free (sep : ascii) (s p : string) :
  In p (JsString.split sep s) -> JsString.mem sep p = false.
Proof.
  revert p. induction s as [|c r IH]; cbn; intros p Hp.
  - destruct Hp as [<- | []]. reflexivity.
  - destruct (Ascii.eqb c sep) eqn:E.
    + destruct Hp as [<- | Hp]; [reflexivity | apply IH, Hp].
    + destruct (JsString.split sep r) as [|q qs].
      * destruct Hp as [<- | []]. cbn. rewrite Ascii.eqb_sym, E. reflexivity.
      * destruct Hp as [<- | Hp].
        -- cbn. rewrite Ascii.eqb_sym, E. apply IH. left. reflexivity.
        -- apply IH. right. exact Hp.
Qed.

Lemma trimStart_mem (c : ascii) (s : string) :
  JsString.mem c s = false -> JsString.mem c (JsString.trimStart s) = false.
Proof.
  induction s as [|d r IH]; cbn; [reflexivity |].
  intros H. destruct (JsString.isWhiteSpace d); [| exact H].
  apply orb_false_elim in H. apply IH, H.
Qed.

Lemma trimEnd_mem (c : ascii) (s : string) :
  JsString.mem c s = false -> JsString.mem c (JsString.trimEnd s) = false.
Proof.
  induction s as [|d r IH]; cbn; [reflexivity |].
  intros H. apply orb_false_elim in H. destruct H as [Hd Hr]. specialize (IH Hr).
  destruct (JsString.trimEnd r) as [|e r'].
  - destruct (JsString.isWhiteSpace d); cbn; [reflexivity | rewrite Hd; reflexivity].
  - cbn [JsString.mem]. rewrite Hd. exact IH.
Qed.

Lemma trimStart_starts (s : string) : startsWithSpace (JsString.trimStart s) = false.
Proof.
  induction s as [|d r IH]; cbn; [reflexivity |].
  destruct (JsString.isWhiteSpace d) eqn:E; [exact IH | cbn; exact E].
Qed.

Lemma trimEnd_starts (s : string) :
  startsWithSpace s = false -> startsWithSpace (JsString.trimEnd s) = false.
Proof.
  destruct s as [|d r]; cbn; [reflexivity |]. intros H.
  destruct (JsString.trimEnd r); [rewrite H |]; cbn; exact H.
Qed.

Lemma trimEnd_ends (s : string) : endsWithSpace (JsString.trimEnd s) = false.
Proof.
  induction s as [|d r IH]; cbn; [reflexivity |].
  destruct (JsString.trimEnd r) as [|e r'].
  - destruct (JsString.isWhiteSpace d) eqn:E; cbn; [reflexivity | exact E].
  - exact IH.
Qed.

(** X7. The list of monitored names is never empty, and every name on it
    is free of commas and has no white space at its start or at its end. *)
Theorem fieldList_names (fields : string) :
  fieldList fields <> [] /\
  forall name, In name (fieldList fields) ->
    JsString.mem "," name = false /\
    startsWithSpace name = false /\
    endsWithSpace name = false.
Proof.
  unfold fieldList. split.
  - intros H. apply map_eq_nil in H. exact (split_not_nil _ _ H).
  - intros name Hin. apply in_map_iff in Hin. destruct Hin as (p & <- & Hp).
    unfold JsString.trim. split; [| split].
    + apply trimEnd_mem, trimStart_mem, (split_pieces_free _ _ _ Hp).
    + apply trimEnd_starts, trimStart_starts.
    + apply trimEnd_ends.
Qed.

Lemma fieldList_names_witness :
  JsString.mem "," "priority" = false /\
  startsWithSpace "priority" = false /\
  endsWithSpace "priority" = false.
Proof.
  apply (proj2 (fieldList_names " status ,  priority ")).
  right. left. reflexivity.
Defined.

Lemma split_join (names : list string) :
  names <> [] ->
  Forall (fun n => JsString.mem "," n = false) names ->
  JsString.split "," (joinComma names) = names.
Proof.
  induction names as [|n r IH]; [contradiction |].
  intros _ Hall. inversion Hall as [|? ? Hn Hr]; subst.
  destruct r as [|m r'].
  - cbn. apply split_single, Hn.
  - change (joinComma (n :: m :: r')) with (n ++ String "," (joinComma (m :: r'))).
    rewrite (split_cons _ _ _ Hn), IH; [reflexivity | discriminate | exact Hr].
Qed.

(** X8. Writing names that contain no comma as a comma-separated list and
    reading the list back gives the names, each one trimmed. *)
Theorem fieldList_joinComma (names : list string) :
  names <> [] ->
  Forall (fun n => JsString.mem "," n = false) names ->
  fieldList (joinComma names) = map JsString.trim names.
Proof.
  intros Hne Hall. unfold fieldList. rewrite (split_join _ Hne Hall). reflexivity.
Qed.

Lemma fieldList_joinComma_witness :
  fieldList (joinComma ["status"; " priority"; "address.city "]) =
  ["status"; "priority"; "address.city"].
Proof.
  apply (fieldList_joinComma ["status"; " priority"; "address.city "]).
  - discriminate.
  - repeat constructor.
Defined.

(** ** The properties of the output, by operation *)

(** X9. The property names of an output are pairwise different, and the
    first five are operation, timestamp, database, collection and
    documentId, in this order. *)
Theorem output_keys_distinct (now : Z) (database collectionName : string)
    (ev : RawChangeEvent) (out : Output) :
  formatChangeOutput now database collectionName ev = Ok out ->
  NoDup (keys out) /\ firstn 5 (keys out) = baseKeys.
Proof.
  intros H. destruct (formatChangeOutput_inv _ _ _ _ _ H) as (base & Hb & ->).
  destruct base as [|[k1 v1] [|[k2 v2] [|[k3 v3] [|[k4 v4] [|[k5 v5] [|? ?]]]]]];
    try discriminate Hb.
  cbn in Hb. injection Hb as -> -> -> -> ->.
  cbn zeta. by_operation ev; cbn [orb]; try destruct (fullDocument ev);
    (split; [| reflexivity]); cbn;
    repeat (constructor; [cbn; intros F;
      repeat (destruct F as [F | F]; [discriminate F |]); exact F |]);
    constructor.
Qed.

Lemma output_keys_distinct_witness :
  exists out,
    formatChangeOutput 0 "x" "y" sampleInsert = Ok out /\
    NoDup (keys out) /\ firstn 5 (keys out) = baseKeys.
Proof.
  eexists. split; [reflexivity |].
  apply (output_keys_distinct 0 "x" "y" sampleInsert). reflexivity.
Defined.

(** X10. Which further properties an output has is decided by the
    operation type alone, but for [documentAfterUpdate]: [document] for an
    insert, [modifiedFields] and [removedFields] for an update,
    [documentAfterUpdate] for an update that brings its full document,
    [documentAfterReplace] for a replace, [newCollection] for a rename,
    [details] for a type outside the six; a delete and a drop have the five
    base properties only. *)
Theorem output_properties_by_operation (now : Z) (database collectionName : string)
    (ev : RawChangeEvent) (out : Output) :
  formatChangeOutput now database collectionName ev = Ok out ->
  (hasOwnProperty out "document" = true <-> operationType ev = "insert") /\
  (hasOwnProperty out "modifiedFields" = true <-> operationType ev = "update") /\
  (hasOwnProperty out "removedFields" = true <-> operationType ev = "update") /\
  (hasOwnProperty out "documentAfterUpdate" = true <->
     operationType ev = "update" /\ fullDocument ev <> None) /\
  (hasOwnProperty out "documentAfterReplace" = true <-> operationType ev = "replace") /\
  (hasOwnProperty out "newCollection" = true <-> operationType ev = "rename") /\
  (hasOwnProperty out "details" = true <-> ~ In (operationType ev) recognised) /\
  (operationType ev = "delete" \/ operationType ev = "drop" -> keys out = baseKeys).
Proof.
  intros H. destruct (formatChangeOutput_inv _ _ _ _ _ H) as (base & Hb & ->).
  destruct base as [|[k1 v1] [|[k2 v2] [|[k3 v3] [|[k4 v4] [|[k5 v5] [|? ?]]]]]];
    try discriminate Hb.
  cbn in Hb. injection Hb as -> -> -> -> ->.
  cbn zeta. unfold recognised.
  by_operation ev; cbn [orb]; destruct (fullDocument ev) eqn:Hfull;
    operation_facts; unfold hasOwnProperty; cbn;
    repeat split; intros; try congruence; try discriminate;
    try (intuition congruence).
Qed.

Lemma output_properties_by_operation_witness :
  exists out,
    formatChangeOutput 0 "x" "y" sampleRename = Ok out /\
    hasOwnProperty out "newCollection" = true /\
    hasOwnProperty out "details" = false.
Proof.
  eexists. split; [reflexivity |].
  destruct (output_properties_by_operation 0 "x" "y" sampleRename _ eq_refl)
    as (_ & _ & _ & _ & _ & Hn & Hd & _).
  split; [apply Hn; reflexivity |].
  apply not_true_iff_false. intros F. apply Hd in F. apply F.
  cbn. tauto.
Defined.


(** ** The listener *)

(** X11. The listener hands at most one output to [emit] for an event,
    and it is the output of [formatChangeOutput], unaltered; it emits
    nothing only for an update under a non-empty filter list; and it raises
    exactly what [formatChangeOutput] raises or, when that returns, the
    TypeError of testing a filter on an update that changes a field named
    [hasOwnProperty]. *)
Theorem onChange_outcomes (now : Z) (database collectionName : string)
    (filters : list Filter) (ev : RawChangeEvent) :
  (forall outs, onChange now database collectionName filters ev = Ok outs ->
     (outs = [] /\ operationType ev = "update" /\ filters <> []) \/
     (exists out, outs = [out] /\
                  formatChangeOutput now database collectionName ev = Ok out)) /\
  (forall e, onChange now database collectionName filters ev = Throw e <->
     formatChangeOutput now database collectionName ev = Throw e \/
     (exists out, formatChangeOutput now database collectionName ev = Ok out /\
                  operationType ev = "update" /\ filters <> [] /\
                  hasOwnProperty (changedFields ev) "hasOwnProperty" = true /\
                  e = hasOwnPropertyError)).
Proof.
  destruct (formatChangeOutput now database collectionName ev) as [out|e0] eqn:Hf.
  2:{ rewrite (onChange_format_fails _ _ _ filters _ _ Hf). split; [discriminate |].
      intros e. split; [intros [= ->]; left; reflexivity |].
      intros [[= ->] | (o & H & _)]; [reflexivity | discriminate H]. }
  destruct (operationType ev ==? "update") eqn:E.
  - apply String.eqb_eq in E. unfold hasOwnProperty.
    destruct filters as [|f fs].
    + rewrite (onChange_update _ _ _ [] _ _ Hf E (or_introl eq_refl)). cbn [forallb].
      split.
      * intros outs [= <-]. right. exists out. split; reflexivity.
      * intros e. split; [discriminate |].
        intros [H | (o & _ & _ & H & _)]; [discriminate H | contradiction].
    + destruct (lookup "hasOwnProperty" (changedFields ev)) as [v|] eqn:Hs.
      * rewrite (onChange_update_shadowed _ _ _ (f :: fs) _ _ v Hf E ltac:(discriminate) Hs).
        split; [discriminate |]. intros e. split.
        -- intros [= <-]. right. exists out.
           repeat split; [exact E | discriminate].
        -- intros [H | (o & _ & _ & _ & _ & ->)]; [discriminate H | reflexivity].
      * rewrite (onChange_update _ _ _ (f :: fs) _ _ Hf E (or_intror Hs)).
        destruct (forallb _ (f :: fs)); split.
        -- intros outs [= <-]. right. exists out. split; reflexivity.
        -- intros e. split; [discriminate |].
           intros [H | (o & _ & _ & _ & H & _)]; discriminate H.
        -- intros outs [= <-]. left. split; [reflexivity | split; [exact E | discriminate]].
        -- intros e. split; [discriminate |].
           intros [H | (o & _ & _ & _ & H & _)]; discriminate H.
  - apply String.eqb_neq in E. rewrite (onChange_other _ _ _ filters _ _ Hf E). split.
    + intros outs [= <-]. right. exists out. split; reflexivity.
    + intros e. split; [discriminate |].
      intros [H | (o & _ & H & _)]; [discriminate H | contradiction].
Qed.

Lemma onChange_outcomes_witness :
  onChange 0 "d" "c" [statusIs "done"] sampleShadowed = Throw hasOwnPropertyError.
Proof.
  apply (proj2 (onChange_outcomes 0 "d" "c" [statusIs "done"] sampleShadowed)).
  right. eexists. split; [reflexivity |].
  split; [reflexivity |]. split; [discriminate |]. split; reflexivity.
Defined.

(** What an emitting listener has tested. *)
Lemma onChange_emits_inv (now : Z) (database collectionName : string)
    (filters : list Filter) (ev : RawChangeEvent) (out : Output) :
  onChange now database collectionName filters ev = Ok [out] ->
  formatChangeOutput now database collectionName ev = Ok out /\
  (operationType ev = "update" ->
     forallb (satisfiedb (changedFields ev)) filters = true).
Proof.
  intros H.
  destruct (formatChangeOutput now database collectionName ev) as [o|e0] eqn:Hf.
  2:{ rewrite (onChange_format_fails _ _ _ filters _ _ Hf) in H. discriminate H. }
  assert (Ho : Ok o = Ok out /\
               (operationType ev = "update" ->
                forallb (satisfiedb (changedFields ev)) filters = true)).
  { destruct (operationType ev ==? "update") eqn:E.
    - apply String.eqb_eq in E.
      destruct filters as [|f fs].
      + rewrite (onChange_update _ _ _ [] _ _ Hf E (or_introl eq_refl)) in H.
        cbn [forallb] in H. split; [congruence | reflexivity].
      + destruct (lookup "hasOwnProperty" (changedFields ev)) as [v|] eqn:Hs.
        * rewrite (onChange_update_shadowed _ _ _ (f :: fs) _ _ v Hf E
                     ltac:(discriminate) Hs) in H. discriminate H.
        * rewrite (onChange_update _ _ _ (f :: fs) _ _ Hf E (or_intror Hs)) in H.
          destruct (forallb _ (f :: fs)); [| discriminate H].
          split; [congruence | reflexivity].
    - apply String.eqb_neq in E. rewrite (onChange_other _ _ _ filters _ _ Hf E) in H.
      split; [congruence | intros X; contradiction]. }
  exact Ho.
Qed.

(** X12. The map an emitted update carries as [modifiedFields] is the
    map the filters were tested on: every filter condition is satisfied by
    the [modifiedFields] of every update the listener emits. *)
Theorem emitted_update_satisfies_filters (now : Z) (database collectionName : string)
    (filters : list Filter) (ev : RawChangeEvent) (out : Output) :
  operationType ev = "update" ->
  onChange now database collectionName filters ev = Ok [out] ->
  exists modified,
    lookup "modifiedFields" out = Some (ODoc modified) /\
    Forall (satisfied modified) filters.
Proof.
  intros Hop H. destruct (onChange_emits_inv _ _ _ _ _ _ H) as [Hf Hall].
  exists (changedFields ev). split.
  - apply (formatChangeOutput_operation _ _ _ _ _ Hf). exact Hop.
  - apply forallb_satisfied, Hall, Hop.
Qed.

Lemma emitted_update_satisfies_filters_witness :
  exists out modified,
    onChange 0 "d" "c" [statusIs "done"] (sampleUpdate [("status", JStr "done")]) = Ok [out] /\
    lookup "modifiedFields" out = Some (ODoc modified) /\
    Forall (satisfied modified) [statusIs "done"].
Proof.
  eexists.
  destruct (emitted_update_satisfies_filters 0 "d" "c" [statusIs "done"]
              (sampleUpdate [("status", JStr "done")]) _ eq_refl eq_refl)
    as (modified & H1 & H2).
  exists modified. split; [reflexivity | split; assumption].
Defined.

(** X13. Dropping, repeating or reordering filter conditions never
    suppresses an event: whatever is emitted under a filter list is emitted
    under every list whose conditions all occur in it. *)
Theorem fewer_filters_emit_more (now : Z) (database collectionName : string)
    (filters filters' : list Filter) (ev : RawChangeEvent) (out : Output) :
  incl filters' filters ->
  onChange now database collectionName filters ev = Ok [out] ->
  onChange now database collectionName filters' ev = Ok [out].
Proof.
  intros Hincl H. destruct (onChange_emits_inv _ _ _ _ _ _ H) as [Hf Hall].
  destruct (operationType ev ==? "update") eqn:E.
  - apply String.eqb_eq in E. specialize (Hall E).
    assert (Hplain : filters' = [] \/ lookup "hasOwnProperty" (changedFields ev) = None).
    { destruct filters' as [|f' fs']; [left; reflexivity | right].
      destruct (lookup "hasOwnProperty" (changedFields ev)) as [v|] eqn:Hs; [| reflexivity].
      assert (Hne : filters <> []).
      { intros ->. exact (Hincl f' (or_introl eq_refl)). }
      rewrite (onChange_update_shadowed _ _ _ filters _ _ v Hf E Hne Hs) in H.
      discriminate H. }
    rewrite (onChange_update _ _ _ filters' _ _ Hf E Hplain).
    rewrite forallb_forall in Hall.
    assert (F' : forallb (satisfiedb (changedFields ev)) filters' = true).
    { apply forallb_forall. intros f Hin. apply Hall, Hincl, Hin. }
    rewrite F'. reflexivity.
  - apply String.eqb_neq in E. exact (onChange_other _ _ _ filters' _ _ Hf E).
Qed.

Lemma fewer_filters_emit_more_witness :
  exists out,
    onChange 0 "d" "c" [statusIs "done"; statusIs "done"]
      (sampleUpdate [("status", JStr "done"); ("priority", JStr "high")]) = Ok [out].
Proof.
  eexists.
  apply (fewer_filters_emit_more 0 "d" "c" [priorityIs "high"; statusIs "done"]
           [statusIs "done"; statusIs "done"]
           (sampleUpdate [("status", JStr "done"); ("priority", JStr "high")])).
  - intros f [<- | [<- | []]]; right; left; reflexivity.
  - reflexivity.
Defined.

(** X14. When no changed field is named [hasOwnProperty], a changed
    value that is not a string never satisfies an [equal] condition and
    always satisfies a [notEqual] condition, whatever string the condition
    compares with: the number 5 is not equal to the string 5. *)
Theorem non_string_values (changed : Doc) (f : Filter) (v : JsVal) :
  lookup "hasOwnProperty" changed = None ->
  lookup (field f) changed = Some v ->
  (forall s, v <> JStr s) ->
  (operator f = "equal" -> conditionMet changed f = Ok false) /\
  (operator f = "notEqual" -> conditionMet changed f = Ok true).
Proof.
  intros Hplain Hl Hv. rewrite conditionMet_cases, Hplain. unfold satisfiedb. rewrite Hl.
  assert (E : strictEqualsString v (value f) = false).
  { apply not_true_iff_false. intros H. apply strictEqualsString_spec in H.
    exact (Hv _ H). }
  rewrite E. split; intros ->; reflexivity.
Qed.

Lemma non_string_values_witness :
  conditionMet [("priority", JNum "5")] (priorityIs "5") = Ok false.
Proof.
  apply (proj1 (non_string_values [("priority", JNum "5")] (priorityIs "5") (JNum "5")
                  eq_refl eq_refl (fun s H => ltac:(discriminate H)))).
  reflexivity.
Defined.

(** X15. A filter list that asks for a field to be equal to a string and
    also not equal to the same string suppresses every update event: the
    listener never emits one. *)
Theorem contradictory_filters (now : Z) (database collectionName : string)
    (filters : list Filter) (f g : Filter) (ev : RawChangeEvent) :
  operationType ev = "update" ->
  In f filters -> In g filters ->
  field f = field g -> value f = value g ->
  operator f = "equal" -> operator g = "notEqual" ->
  forall outs, onChange now database collectionName filters ev = Ok outs -> outs = [].
Proof.
  intros Hop Hf Hg Hfield Hvalue Hof Hog outs H.
  destruct outs as [|out [|out' outs']]; [reflexivity | | ].
  - exfalso. destruct (onChange_emits_inv _ _ _ _ _ _ H) as [_ Hall].
    specialize (Hall Hop). rewrite forallb_forall in Hall.
    pose proof (Hall f Hf) as Ef. pose proof (Hall g Hg) as Eg.
    apply satisfiedb_spec in Ef, Eg.
    destruct Ef as (v & Hl & [[_ Hveq] | [Hc _]]); [| congruence].
    destruct Eg as (w & Hl' & [[Hc _] | [_ Hwne]]); [congruence |].
    rewrite <- Hfield, Hl in Hl'. injection Hl' as <-.
    apply Hwne. rewrite <- Hvalue. exact Hveq.
  - exfalso. unfold onChange in H.
    destruct (formatChangeOutput now database collectionName ev); [| discriminate H].
    cbn [bind] in H.
    destruct ((0 <? List.length filters)%nat && (operationType ev ==? "update"));
      [| discriminate H].
    destruct (every _ filters) as [[]|]; discriminate H.
Qed.

Lemma contradictory_filters_witness :
  exists outs,
    onChange 0 "d" "c" [statusIs "done"; statusIsNot "done"]
      (sampleUpdate [("status", JStr "done")]) = Ok outs /\ outs = [].
Proof.
  eexists. split; [reflexivity |].
  apply (contradictory_filters 0 "d" "c" [statusIs "done"; statusIsNot "done"]
           (statusIs "done") (statusIsNot "done") (sampleUpdate [("status", JStr "done")]));
    try reflexivity.
  - left. reflexivity.
  - right. left. reflexivity.
Defined.

(** ** The two filters together *)

(** X16. The server stage never holds back an update that a client
    filter on a monitored field accepts: when a condition on a field is
    satisfied and the field, a name without a dot, is on the list of
    monitored names, the field stage lets the update through. *)
Theorem monitored_filter_field_delivered (fields : string) (f : Filter)
    (ev : RawChangeEvent) :
  operationType ev = "update" ->
  satisfied (changedFields ev) f ->
  In (field f) (fieldList fields) ->
  JsString.mem "." (field f) = false ->
  Server.passes (fieldStage (fieldList fields)) ev = true.
Proof.
  intros Hop (v & Hl & _) Hin Hplain.
  apply (fieldStage_update _ _ Hop). exists (field f). split; [exact Hin |].
  rewrite (pathExists_plain_field _ _ Hplain). unfold hasOwnProperty. rewrite Hl. reflexivity.
Qed.

Lemma monitored_filter_field_delivered_witness :
  Server.passes (fieldStage (fieldList "priority, status"))
    (sampleUpdate [("status", JStr "done")]) = true.
Proof.
  apply (monitored_filter_field_delivered "priority, status" (statusIs "done")
           (sampleUpdate [("status", JStr "done")])).
  - reflexivity.
  - exists (JStr "done"). split; [reflexivity | left; split; reflexivity].
  - right. left. reflexivity.
  - reflexivity.
Defined.

Lemma details_only_unrecognised (now : Z) (database collectionName : string)
    (ev : RawChangeEvent) (out : Output) :
  formatChangeOutput now database collectionName ev = Ok out ->
  In (operationType ev) recognised ->
  hasOwnProperty out "details" = false.
Proof.
  intros H Hin. destruct (formatChangeOutput_inv _ _ _ _ _ H) as (base & Hb & ->).
  destruct base as [|[k1 v1] [|[k2 v2] [|[k3 v3] [|[k4 v4] [|[k5 v5] [|? ?]]]]]];
    try discriminate Hb.
  cbn in Hb. injection Hb as -> -> -> -> ->.
  cbn zeta. unfold recognised in Hin.
  by_operation ev; cbn [orb]; try destruct (fullDocument ev); try reflexivity.
  all: operation_facts; exfalso; cbn in Hin; intuition congruence.
Qed.

(** X17. Every operation type the node offers for selection has a case
    of its own in [formatChangeOutput]: an event that passes an operation
    stage built from offered types is never normalised through the
    [details] fallback. *)
Theorem offered_types_never_fall_back (now : Z) (database collectionName : string)
    (ops : list string) (ev : RawChangeEvent) (out : Output) :
  incl ops supportedTypes ->
  Server.passes (operationStage ops) ev = true ->
  formatChangeOutput now database collectionName ev = Ok out ->
  hasOwnProperty out "details" = false.
Proof.
  intros Hincl Hp Hf. apply (details_only_unrecognised _ _ _ _ _ Hf).
  apply operationStage_passes in Hp. apply Hincl in Hp.
  unfold supportedTypes in Hp. unfold recognised. cbn in Hp |- *. tauto.
Qed.

Lemma offered_types_never_fall_back_witness :
  exists out,
    formatChangeOutput 0 "x" "y" sampleRename = Ok out /\
    hasOwnProperty out "details" = false.
Proof.
  eexists. split; [reflexivity |].
  apply (offered_types_never_fall_back 0 "x" "y" ["drop"; "rename"] sampleRename).
  - intros x [<- | [<- | []]]; cbn; tauto.
  - reflexivity.
  - reflexivity.
Defined.

(** X18. With the default parameters (fields ["*"], operation types
    [update], no filter) the pipeline delivers exactly the update events,
    and the listener emits every event it is handed for which
    [formatChangeOutput] returns. *)
Theorem default_configuration (now : Z) (database collectionName : string)
    (ev : RawChangeEvent) :
  (passesPipeline (buildPipeline defaultFields defaultOperationTypes) ev = true <->
     operationType ev = "update") /\
  (forall out, formatChangeOutput now database collectionName ev = Ok out ->
     onChange now database collectionName defaultFilters ev = Ok [out]).
Proof.
  split.
  - rewrite passesPipeline_buildPipeline. unfold defaultFields, defaultOperationTypes.
    change ((0 <? List.length ["update"])%nat && (List.length ["update"] <? 6)%nat)
      with true.
    change (negb ("*" ==? "*") && includes ["update"] "update") with false.
    cbv iota. unfold includes. cbn [existsb].
    rewrite orb_false_r, andb_true_r, String.eqb_sym. apply String.eqb_eq.
  - intros out Hout. unfold onChange. rewrite Hout. reflexivity.
Qed.

Lemma default_configuration_witness :
  exists out, onChange 0 "d" "c" defaultFilters sampleInsert = Ok [out].
Proof.
  eexists.
  apply (proj2 (default_configuration 0 "d" "c" sampleInsert)). reflexivity.
Defined.

(** ** Shutdown, further *)

(** X19. When the change stream closes and the client's close fails,
    both closes were made, in order, the failure is the outcome, and the
    stream is left closed; and no call of [closeFunction] opens a handle:
    one that is closed before the call is closed after it. *)
Theorem closeFunction_client_failure (drv : Closers) (h : Handles) :
  (forall e, changeStreamClose drv (streamOpen h) = Ok tt ->
             clientClose drv (clientOpen h) = Throw e ->
     closeFunction drv h =
       ({| streamOpen := false; clientOpen := clientOpen h;
           calls := (calls h ++ [CloseChangeStream; CloseClient])%list |}, Throw e)) /\
  (streamOpen h = false -> streamOpen (fst (closeFunction drv h)) = false) /\
  (clientOpen h = false -> clientOpen (fst (closeFunction drv h)) = false).
Proof.
  unfold closeFunction. split; [| split].
  - intros e Hs Hc. rewrite Hs, Hc. cbn [calls]. rewrite <- app_assoc. reflexivity.
  - intros H. destruct (changeStreamClose drv (streamOpen h)); [| exact H].
    destruct (clientClose drv (clientOpen h)); reflexivity.
  - intros H. destruct (changeStreamClose drv (streamOpen h)); [| exact H].
    destruct (clientClose drv (clientOpen h)); [reflexivity | exact H].
Qed.

Lemma closeFunction_client_failure_witness :
  closeFunction brokenClient openHandles =
    ({| streamOpen := false; clientOpen := true;
        calls := [CloseChangeStream; CloseClient] |}, Throw clientError).
Proof.
  apply (proj1 (closeFunction_client_failure brokenClient openHandles)); reflexivity.
Defined.

(** ** Further edge cases *)

(** X20. When no changed field is named [hasOwnProperty]: on a field
    that is among the changed fields, [equal] and [notEqual] with the same
    string are complementary (exactly one of the two conditions is met); on
    a field that is not, neither is met. *)
Theorem equal_notEqual_complementary (changed : Doc) (f v : string) :
  lookup "hasOwnProperty" changed = None ->
  (hasOwnProperty changed f = true ->
     exists b, conditionMet changed (condition f "equal" v) = Ok b /\
               conditionMet changed (condition f "notEqual" v) = Ok (negb b)) /\
  (hasOwnProperty changed f = false ->
     conditionMet changed (condition f "equal" v) = Ok false /\
     conditionMet changed (condition f "notEqual" v) = Ok false).
Proof.
  intros Hplain. rewrite !conditionMet_cases, Hplain.
  unfold satisfiedb, hasOwnProperty, condition. cbn [field operator value].
  destruct (lookup f changed) as [w|]; cbn.
  - split; [intros _ | discriminate].
    eexists. split; reflexivity.
  - split; [discriminate | intros _; split; reflexivity].
Qed.

Lemma equal_notEqual_complementary_witness :
  exists b,
    conditionMet [("status", JStr "done")] (condition "status" "equal" "open") = Ok b /\
    conditionMet [("status", JStr "done")] (condition "status" "notEqual" "open") =
      Ok (negb b).
Proof.
  apply (proj1 (equal_notEqual_complementary [("status", JStr "done")] "status" "open"
                  eq_refl)).
  reflexivity.
Defined.

Lemma trimStart_keeps (c : ascii) (s : string) :
  JsString.isWhiteSpace c = false ->
  JsString.mem c s = true -> JsString.mem c (JsString.trimStart s) = true.
Proof.
  intros Hc. induction s as [|d r IH]; cbn; [discriminate |].
  intros H. destruct (JsString.isWhiteSpace d) eqn:Hd; [| exact H].
  apply orb_true_iff in H. destruct H as [H | H]; [| apply IH, H].
  apply Ascii.eqb_eq in H. subst. congruence.
Qed.

Lemma trimEnd_keeps (c : ascii) (s : string) :
  JsString.isWhiteSpace c = false ->
  JsString.mem c s = true -> JsString.mem c (JsString.trimEnd s) = true.
Proof.
  intros Hc. induction s as [|d r IH]; cbn; [discriminate |].
  intros H. apply orb_true_iff in H.
  destruct (JsString.trimEnd r) as [|e r'] eqn:E.
  - destruct H as [H | H]; [| specialize (IH H); discriminate IH].
    apply Ascii.eqb_eq in H. subst d. rewrite Hc. cbn. rewrite Ascii.eqb_refl. reflexivity.
  - cbn [JsString.mem]. destruct H as [H | H]; [rewrite H; reflexivity |].
    pose proof (IH H) as K. cbn [JsString.mem] in K. rewrite K. apply orb_true_r.
Qed.

(** X21. The wildcard is honoured only when [fields] is exactly ["*"].
    A value that is ["*"] with white space around it is read as the name of
    a field: when update is selected the field stage is added, monitoring
    the single name ["*"], and an update is let through only if a field of
    that name changed. *)
Theorem padded_wildcard_is_a_name (fields : string) (ops : list string) :
  JsString.trim fields = "*" ->
  fields <> "*" ->
  In "update" ops ->
  fieldList fields = ["*"] /\
  In (fieldStage ["*"]) (buildPipeline fields ops) /\
  forall ev, operationType ev = "update" ->
    Server.passes (fieldStage ["*"]) ev = hasOwnProperty (changedFields ev) "*".
Proof.
  intros Ht Hne Hu.
  assert (Hcomma : JsString.mem "," fields = false).
  { apply not_true_iff_false. intros H.
    apply (trimStart_keeps "," fields eq_refl) in H.
    apply (trimEnd_keeps "," _ eq_refl) in H.
    fold (JsString.trim fields) in H. rewrite Ht in H. discriminate H. }
  assert (Hl : fieldList fields = ["*"]).
  { unfold fieldList. rewrite (split_single _ _ Hcomma). cbn [map]. rewrite Ht. reflexivity. }
  split; [exact Hl |]. split.
  - rewrite <- Hl. apply fieldStage_appended; assumption.
  - intros ev Hop. apply eq_true_iff_eq.
    rewrite (fieldStage_update _ _ Hop). split.
    + intros (f & [<- | []] & H). rewrite pathExists_plain_field in H by reflexivity. exact H.
    + intros H. exists "*". split; [left; reflexivity |].
      rewrite pathExists_plain_field by reflexivity. exact H.
Qed.

Lemma padded_wildcard_is_a_name_witness :
  fieldList " * " = ["*"] /\
  In (fieldStage ["*"]) (buildPipeline " * " ["update"]) /\
  Server.passes (fieldStage ["*"]) (sampleUpdate [("status", JStr "done")]) = false.
Proof.
  destruct (padded_wildcard_is_a_name " * " ["update"] eq_refl) as (H1 & H2 & H3).
  - discriminate.
  - left. reflexivity.
  - split; [exact H1 | split; [exact H2 |]].
    rewrite (H3 (sampleUpdate [("status", JStr "done")]) eq_refl). reflexivity.
Defined.
